(** * Webview (windows/webview.cc): a shallow embedding of the adapter

    The C++ class [Webview] bridges a host (callbacks stored in
    [std::function] members) and the WebView2 control (COM objects).  The
    embedding threads an explicit [World] through every member function:
    the fields of [this], the ordered log of the calls received by the
    native objects, the text written to [std::cerr], and the state of the
    host, which only the host's callbacks change. *)

From Stdlib Require Import ZArith List Bool String Ascii Lia.
From Stdlib Require Import SpecFloat.
Import ListNotations.
Open Scope Z_scope.

(** ** Machine integers of the Windows ABI *)

Module Int.
(** Two's complement reading of the low [bits] bits of [z]. *)
Definition wrap_signed (bits z : Z) : Z :=
  (z + 2 ^ (bits - 1)) mod 2 ^ bits - 2 ^ (bits - 1).

Definition wrap_unsigned (bits z : Z) : Z := z mod 2 ^ bits.

Definition in_signed (bits z : Z) : bool :=
  (- 2 ^ (bits - 1) <=? z) && (z <? 2 ^ (bits - 1)).
End Int.

Definition LONG := Z.      (* 32-bit signed *)
Definition short := Z.     (* 16-bit signed *)
Definition UINT32 := Z.    (* 32-bit unsigned *)
Definition size_t := Z.    (* unsigned, pointer sized *)
Definition HRESULT := Z.   (* 32-bit signed *)
Definition HCURSOR := Z.   (* an opaque handle *)

Definition S_OK : HRESULT := 0.
Definition E_FAIL : HRESULT := Int.wrap_signed 32 0x80004005.

Definition LONG_of_size_t (n : size_t) : LONG := Int.wrap_signed 32 n.
Definition UINT32_of_int (n : Z) : UINT32 := Int.wrap_unsigned 32 n.
Definition UINT32_of_short (n : short) : UINT32 := Int.wrap_unsigned 32 n.

Module POINT.
Record t := { x : LONG; y : LONG }.
End POINT.
Abbreviation POINT := POINT.t.

Module RECT.
Record t := { left : LONG; top : LONG; right : LONG; bottom : LONG }.
End RECT.
Abbreviation RECT := RECT.t.

(** ** Floating point: [double] is binary64, [float] is binary32 *)

Definition double := spec_float.
Definition float := spec_float.

Module Double.
Definition mul : double -> double -> double := SFmul 53 1024.
Definition of_int (n : Z) : double := binary_normalize 53 1024 n 0 false.
Definition zero : double := S754_zero false.
(** C++ [a != b]: true as soon as the operands are unordered or differ. *)
Definition neq (a b : double) : bool := negb (SFeqb a b).

(** The integral part of a finite value, rounded toward zero. *)
Definition truncate (d : double) : option Z :=
  match d with
  | S754_zero _ => Some 0
  | S754_finite s m e =>
      Some (cond_Zopp s (if 0 <=? e then Zpos m * 2 ^ e
                         else Zpos m / 2 ^ (- e)))
  | S754_infinity _ | S754_nan => None
  end.
End Double.

Definition float_of_size_t (n : size_t) : float :=
  binary_normalize 24 128 n 0 false.

(** Whether a double lies strictly between -1 and 1: a zero of either
    sign, or a finite [m * 2^e] with [m < 2^-e]. *)
Definition strictly_inside_unit (d : double) : bool :=
  match d with
  | S754_zero _ => true
  | S754_finite _ m e => (e <? 0) && (Zpos m <? 2 ^ (- e))
  | S754_infinity _ | S754_nan => false
  end.

(** ** Strings *)

Definition wchar_t := Z.            (* 16-bit unsigned on Windows *)
Definition wstring := list wchar_t.

(** A wide literal [L"..."] of ASCII text. *)
Definition L (s : string) : wstring :=
  map (fun c => Z.of_N (N_of_ascii c)) (list_ascii_of_string s).

(** [char] is signed with the Windows compilers; the range constructor of
    [std::wstring] converts each [char] to [wchar_t] on its own. *)
Definition wchar_t_of_char (c : ascii) : wchar_t :=
  let n := Z.of_N (N_of_ascii c) in
  Int.wrap_unsigned 16 (Int.wrap_signed 8 n).

Definition towstring (str : string) : wstring :=
  map wchar_t_of_char (list_ascii_of_string str).

(** [std::wstring::c_str()] handed to a parameter of type [LPCWSTR]: the
    callee reads the characters before the first NUL. *)
Fixpoint c_str (s : wstring) : wstring :=
  match s with
  | [] => []
  | c :: s' => if c =? 0 then [] else c :: c_str s'
  end.

(** The part of a narrow string before its first NUL [char]. *)
Fixpoint until_nul (str : string) : string :=
  match str with
  | EmptyString => EmptyString
  | String c str' =>
      if Ascii.eqb c Ascii.zero then EmptyString
      else String c (until_nul str')
  end.

(** ** Enumerations of the WebView2 SDK (WebView2.h) *)

Definition COREWEBVIEW2_MOUSE_EVENT_KIND := Z.
Definition COREWEBVIEW2_MOUSE_EVENT_KIND_HORIZONTAL_WHEEL := 0x020E.
Definition COREWEBVIEW2_MOUSE_EVENT_KIND_LEFT_BUTTON_DOWN := 0x0201.
Definition COREWEBVIEW2_MOUSE_EVENT_KIND_LEFT_BUTTON_UP := 0x0202.
Definition COREWEBVIEW2_MOUSE_EVENT_KIND_MIDDLE_BUTTON_DOWN := 0x0207.
Definition COREWEBVIEW2_MOUSE_EVENT_KIND_MIDDLE_BUTTON_UP := 0x0208.
Definition COREWEBVIEW2_MOUSE_EVENT_KIND_MOVE := 0x0200.
Definition COREWEBVIEW2_MOUSE_EVENT_KIND_RIGHT_BUTTON_DOWN := 0x0204.
Definition COREWEBVIEW2_MOUSE_EVENT_KIND_RIGHT_BUTTON_UP := 0x0205.
Definition COREWEBVIEW2_MOUSE_EVENT_KIND_WHEEL := 0x020A.
Definition COREWEBVIEW2_MOUSE_EVENT_KIND_X_BUTTON_DOWN := 0x020B.
Definition COREWEBVIEW2_MOUSE_EVENT_KIND_X_BUTTON_UP := 0x020C.

Definition COREWEBVIEW2_MOUSE_EVENT_VIRTUAL_KEYS := Z.
Definition COREWEBVIEW2_MOUSE_EVENT_VIRTUAL_KEYS_NONE := 0x0.
Definition COREWEBVIEW2_MOUSE_EVENT_VIRTUAL_KEYS_LEFT_BUTTON := 0x1.
Definition COREWEBVIEW2_MOUSE_EVENT_VIRTUAL_KEYS_RIGHT_BUTTON := 0x2.
Definition COREWEBVIEW2_MOUSE_EVENT_VIRTUAL_KEYS_MIDDLE_BUTTON := 0x10.

(** ** Declarations of webview.h *)

(** Modelled from the spec: webview.h, which declares the enumeration
    [WebviewLoadingState], is not among the sources.  The handlers name its
    enumerators [Loading] and [NavigationCompleted]. *)
Module WebviewLoadingState.
Inductive t := Loading | NavigationCompleted.
End WebviewLoadingState.

(** Modelled from the spec: webview.h, which declares the enumeration
    [WebviewPointerButton], is not among the sources.  The switch of
    [SetPointerButtonState] names [Primary], [Secondary] and [Tertiary] and
    has a default branch; [None] stands for the values that reach it. *)
Module WebviewPointerButton.
Inductive t := None | Primary | Secondary | Tertiary.
End WebviewPointerButton.

(** Modelled from the spec: webview.h, which declares [VirtualKeyState], is
    not among the sources.  It keeps one value of the SDK's virtual-key flag
    enumeration; each setter sets the flag of its button to [is_down] and
    keeps the others, and [state] reads the value. *)
Module VirtualKeyState.
Record t := { state_ : COREWEBVIEW2_MOUSE_EVENT_VIRTUAL_KEYS }.

Definition init : t :=
  {| state_ := COREWEBVIEW2_MOUSE_EVENT_VIRTUAL_KEYS_NONE |}.

Definition set (key : COREWEBVIEW2_MOUSE_EVENT_VIRTUAL_KEYS) (flag : bool)
    (v : t) : t :=
  if flag then {| state_ := Z.lor (state_ v) key |}
  else {| state_ := Z.land (state_ v) (Z.lnot key) |}.

Definition set_isLeftButtonDown (is_down : bool) : t -> t :=
  set COREWEBVIEW2_MOUSE_EVENT_VIRTUAL_KEYS_LEFT_BUTTON is_down.
Definition set_isRightButtonDown (is_down : bool) : t -> t :=
  set COREWEBVIEW2_MOUSE_EVENT_VIRTUAL_KEYS_RIGHT_BUTTON is_down.
Definition set_isMiddleButtonDown (is_down : bool) : t -> t :=
  set COREWEBVIEW2_MOUSE_EVENT_VIRTUAL_KEYS_MIDDLE_BUTTON is_down.

Definition state (v : t) : COREWEBVIEW2_MOUSE_EVENT_VIRTUAL_KEYS :=
  state_ v.
End VirtualKeyState.

(** ** The native objects

    Each COM interface is a record of what its methods answer; the calls
    themselves are appended to the log of the world. *)

Record ICoreWebView2 := {
  CallDevToolsProtocolMethod_result : wstring -> wstring -> HRESULT;
  get_Source_result : HRESULT * wstring;
  get_DocumentTitle_result : HRESULT * wstring
}.

Record ICoreWebView2Settings2 := {
  put_UserAgent_result : wstring -> HRESULT
}.

Record ICoreWebView2Controller3 := {
  put_Bounds_result : RECT -> HRESULT
}.

Record ICoreWebView2CompositionController := {
  SendMouseInput_result :
    COREWEBVIEW2_MOUSE_EVENT_KIND -> COREWEBVIEW2_MOUSE_EVENT_VIRTUAL_KEYS ->
    UINT32 -> POINT -> HRESULT;
  get_Cursor_result : HRESULT * HCURSOR
}.

(** A call received by a native object, with its arguments as converted to
    the parameter types of the method. *)
Inductive NativeCall :=
| SendMouseInput (eventKind : COREWEBVIEW2_MOUSE_EVENT_KIND)
    (virtualKeys : COREWEBVIEW2_MOUSE_EVENT_VIRTUAL_KEYS)
    (mouseData : UINT32) (point : POINT)
| put_Bounds (bounds : RECT)
| Visual_Size (width height : float)
| CallDevToolsProtocolMethod (methodName parameters : wstring)
| put_UserAgent (userAgent : wstring)
| get_Source
| get_DocumentTitle
| get_Cursor.

(** The navigation methods of [ICoreWebView2], with what each answers. *)
Module Navigation.
Inductive Call :=
| Navigate (uri : wstring)
| NavigateToString (htmlContent : wstring)
| Reload.

Record Results := {
  Navigate_result : wstring -> HRESULT;
  NavigateToString_result : wstring -> HRESULT;
  Reload_result : HRESULT
}.
End Navigation.

(** Whether every [char] of a string is below 0x80. *)
Definition seven_bit (s : string) : bool :=
  forallb (fun c => Z.of_N (N_of_ascii c) <? 128) (list_ascii_of_string s).

(** ** The object and its world *)

Section Webview.

(** The state of the host, as its callbacks see and change it. *)
Context {Host : Type}.

(** A floating-point value whose integral part does not fit the
    destination type converts to a value that the language leaves open;
    the conversion instructions of the target decide it. *)
Variable unrepresentable_LONG : double -> Z.
Variable unrepresentable_short : double -> Z.

(** ATL's conversion of wide text to the ANSI code page. *)
Variable CW2A : wstring -> string.

Definition static_cast_LONG (d : double) : LONG :=
  match Double.truncate d with
  | Some z => if Int.in_signed 32 z then z
              else Int.wrap_signed 32 (unrepresentable_LONG d)
  | None => Int.wrap_signed 32 (unrepresentable_LONG d)
  end.

Definition static_cast_short (d : double) : short :=
  match Double.truncate d with
  | Some z => if Int.in_signed 16 z then z
              else Int.wrap_signed 16 (unrepresentable_short d)
  | None => Int.wrap_signed 16 (unrepresentable_short d)
  end.

(** A [std::function<void(A)>] member: empty, or a target that acts on
    the host. *)
Definition callback (A : Type) : Type := option (A -> Host -> Host).

Definition has_target {A} (f : callback A) : bool :=
  match f with Some _ => true | None => false end.

Record Webview := {
  composition_controller_ : ICoreWebView2CompositionController;
  webview_controller_ : ICoreWebView2Controller3;
  webview_ : ICoreWebView2;
  settings2_ : option ICoreWebView2Settings2;
  surface_ : bool;   (* whether [surface_.get()] yields a visual *)
  virtual_keys_ : VirtualKeyState.t;
  last_cursor_pos_ : POINT;
  loading_state_changed_callback_ : callback WebviewLoadingState.t;
  url_changed_callback_ : callback string;
  document_title_changed_callback_ : callback string;
  cursor_changed_callback_ : callback HCURSOR;
  focus_changed_callback_ : callback bool;
  surface_size_changed_callback_ : callback (size_t * size_t)
}.

Definition with_virtual_keys (v : VirtualKeyState.t) (t : Webview) :=
  {| composition_controller_ := composition_controller_ t;
     webview_controller_ := webview_controller_ t;
     webview_ := webview_ t;
     settings2_ := settings2_ t;
     surface_ := surface_ t;
     virtual_keys_ := v;
     last_cursor_pos_ := last_cursor_pos_ t;
     loading_state_changed_callback_ := loading_state_changed_callback_ t;
     url_changed_callback_ := url_changed_callback_ t;
     document_title_changed_callback_ := document_title_changed_callback_ t;
     cursor_changed_callback_ := cursor_changed_callback_ t;
     focus_changed_callback_ := focus_changed_callback_ t;
     surface_size_changed_callback_ := surface_size_changed_callback_ t |}.

Definition with_last_cursor_pos (p : POINT) (t : Webview) :=
  {| composition_controller_ := composition_controller_ t;
     webview_controller_ := webview_controller_ t;
     webview_ := webview_ t;
     settings2_ := settings2_ t;
     surface_ := surface_ t;
     virtual_keys_ := virtual_keys_ t;
     last_cursor_pos_ := p;
     loading_state_changed_callback_ := loading_state_changed_callback_ t;
     url_changed_callback_ := url_changed_callback_ t;
     document_title_changed_callback_ := document_title_changed_callback_ t;
     cursor_changed_callback_ := cursor_changed_callback_ t;
     focus_changed_callback_ := focus_changed_callback_ t;
     surface_size_changed_callback_ := surface_size_changed_callback_ t |}.

Record World := {
  this : Webview;
  native : list NativeCall;   (* calls received so far, oldest first *)
  cerr : list string;         (* lines written to [std::cerr] *)
  host : Host
}.

(** ** Computations

    A member function maps a world to [Some] of its result and the world
    it leaves, or to [None] when [std::bad_function_call] leaves it. *)

Definition M (A : Type) : Type := World -> option (A * World).

Definition ret {A} (a : A) : M A := fun w => Some (a, w).

Definition bind {A B} (m : M A) (k : A -> M B) : M B :=
  fun w => match m w with
           | Some (a, w') => k a w'
           | None => None
           end.

Notation "v <- m ;; k" := (bind m (fun v => k))
  (at level 61, m at next level, right associativity).
Notation "m ;; k" := (bind m (fun _ => k))
  (at level 61, right associativity).

Definition get_this : M Webview := fun w => Some (this w, w).

Definition put_this (t : Webview) : M unit :=
  fun w => Some (tt, {| this := t; native := native w;
                        cerr := cerr w; host := host w |}).

Definition call_native (c : NativeCall) : M unit :=
  fun w => Some (tt, {| this := this w; native := native w ++ [c];
                        cerr := cerr w; host := host w |}).

Definition write_cerr (line : string) : M unit :=
  fun w => Some (tt, {| this := this w; native := native w;
                        cerr := cerr w ++ [line]; host := host w |}).

(** [std::function::operator()]: throws when there is no target. *)
Definition invoke {A} (f : callback A) (a : A) : M unit :=
  fun w => match f with
           | Some g => Some (tt, {| this := this w; native := native w;
                                    cerr := cerr w; host := g a (host w) |})
           | None => None
           end.

Definition when (b : bool) (m : M unit) : M unit :=
  if b then m else ret tt.

(** *** Methods of the native objects *)

Definition ICoreWebView2CompositionController_SendMouseInput
    (c : ICoreWebView2CompositionController)
    (eventKind : COREWEBVIEW2_MOUSE_EVENT_KIND)
    (virtualKeys : COREWEBVIEW2_MOUSE_EVENT_VIRTUAL_KEYS)
    (mouseData : UINT32) (point : POINT) : M HRESULT :=
  call_native (SendMouseInput eventKind virtualKeys mouseData point) ;;
  ret (SendMouseInput_result c eventKind virtualKeys mouseData point).

Definition ICoreWebView2CompositionController_get_Cursor
    (c : ICoreWebView2CompositionController) : M (HRESULT * HCURSOR) :=
  call_native get_Cursor ;; ret (get_Cursor_result c).

Definition ICoreWebView2Controller_put_Bounds
    (c : ICoreWebView2Controller3) (bounds : RECT) : M HRESULT :=
  call_native (put_Bounds bounds) ;; ret (put_Bounds_result c bounds).

Definition ICoreWebView2_CallDevToolsProtocolMethod
    (v : ICoreWebView2) (methodName parameters : wstring) : M HRESULT :=
  call_native (CallDevToolsProtocolMethod methodName parameters) ;;
  ret (CallDevToolsProtocolMethod_result v methodName parameters).

Definition ICoreWebView2_get_Source (v : ICoreWebView2)
    : M (HRESULT * wstring) :=
  call_native get_Source ;; ret (get_Source_result v).

Definition ICoreWebView2_get_DocumentTitle (v : ICoreWebView2)
    : M (HRESULT * wstring) :=
  call_native get_DocumentTitle ;; ret (get_DocumentTitle_result v).

Definition ICoreWebView2Settings2_put_UserAgent
    (s : ICoreWebView2Settings2) (userAgent : wstring) : M HRESULT :=
  call_native (put_UserAgent userAgent) ;;
  ret (put_UserAgent_result s userAgent).

Definition Visual_put_Size (width height : float) : M unit :=
  call_native (Visual_Size width height).

Definition modify_this (f : Webview -> Webview) : M unit :=
  t <- get_this ;; put_this (f t).

(** ** Member functions of [Webview] *)

(** *** The handlers installed by [RegisterEventHandlers] *)

Inductive NativeEvent :=
| ContentLoading
| NavigationCompleted
| SourceChanged
| DocumentTitleChanged
| CursorChanged
| GotFocus
| LostFocus.

Definition on_ContentLoading : M HRESULT :=
  t <- get_this ;;
  when (has_target (loading_state_changed_callback_ t))
    (invoke (loading_state_changed_callback_ t) WebviewLoadingState.Loading) ;;
  ret S_OK.

Definition on_NavigationCompleted : M HRESULT :=
  t <- get_this ;;
  when (has_target (loading_state_changed_callback_ t))
    (invoke (loading_state_changed_callback_ t)
       WebviewLoadingState.NavigationCompleted) ;;
  ret S_OK.

(** [a && b] evaluates [b] only when [a] holds: the getter is not called
    for an empty callback. *)
Definition on_SourceChanged : M HRESULT :=
  t <- get_this ;;
  when (has_target (url_changed_callback_ t))
    (r <- ICoreWebView2_get_Source (webview_ t) ;;
     when (fst r =? S_OK) (invoke (url_changed_callback_ t) (CW2A (snd r)))) ;;
  ret S_OK.

Definition on_DocumentTitleChanged : M HRESULT :=
  t <- get_this ;;
  when (has_target (document_title_changed_callback_ t))
    (r <- ICoreWebView2_get_DocumentTitle (webview_ t) ;;
     when (fst r =? S_OK)
       (invoke (document_title_changed_callback_ t) (CW2A (snd r)))) ;;
  ret S_OK.

Definition on_CursorChanged (sender : ICoreWebView2CompositionController)
    : M HRESULT :=
  t <- get_this ;;
  when (has_target (cursor_changed_callback_ t))
    (r <- ICoreWebView2CompositionController_get_Cursor sender ;;
     when (fst r =? S_OK) (invoke (cursor_changed_callback_ t) (snd r))) ;;
  ret S_OK.

Definition on_GotFocus : M HRESULT :=
  t <- get_this ;;
  when (has_target (focus_changed_callback_ t))
    (invoke (focus_changed_callback_ t) true) ;;
  ret S_OK.

Definition on_LostFocus : M HRESULT :=
  t <- get_this ;;
  when (has_target (focus_changed_callback_ t))
    (invoke (focus_changed_callback_ t) false) ;;
  ret S_OK.

(** The registration, as the table it leaves: what runs when the control
    raises each event.  The control passes itself as the sender. *)
Definition RegisterEventHandlers (e : NativeEvent) : M HRESULT :=
  match e with
  | ContentLoading => on_ContentLoading
  | NavigationCompleted => on_NavigationCompleted
  | SourceChanged => on_SourceChanged
  | DocumentTitleChanged => on_DocumentTitleChanged
  | CursorChanged =>
      t <- get_this ;; on_CursorChanged (composition_controller_ t)
  | GotFocus => on_GotFocus
  | LostFocus => on_LostFocus
  end.

(** *** Operations called by the host *)

Definition SetSurfaceSize (width height : size_t) : M unit :=
  t <- get_this ;;
  when (surface_ t)
    (Visual_put_Size (float_of_size_t width) (float_of_size_t height) ;;
     let bounds := {| RECT.left := 0; RECT.top := 0;
                      RECT.right := LONG_of_size_t width;
                      RECT.bottom := LONG_of_size_t height |} in
     hr <- ICoreWebView2Controller_put_Bounds (webview_controller_ t) bounds ;;
     when (negb (hr =? S_OK)) (write_cerr "Setting webview bounds failed.") ;;
     when (has_target (surface_size_changed_callback_ t))
       (invoke (surface_size_changed_callback_ t) (width, height))).

Definition ClearCookies : M bool :=
  t <- get_this ;;
  hr <- ICoreWebView2_CallDevToolsProtocolMethod (webview_ t)
          (L "Network.clearBrowserCookies") (L "{}") ;;
  ret (hr =? S_OK).

Definition SetUserAgent (user_agent : string) : M bool :=
  t <- get_this ;;
  match settings2_ t with
  | Some settings2 =>
      hr <- ICoreWebView2Settings2_put_UserAgent settings2
              (c_str (towstring user_agent)) ;;
      ret (hr =? S_OK)
  | None => ret false
  end.

Definition SetCursorPos (x y : double) : M unit :=
  let point := {| POINT.x := static_cast_LONG x;
                  POINT.y := static_cast_LONG y |} in
  modify_this (with_last_cursor_pos point) ;;
  t <- get_this ;;
  _ <- ICoreWebView2CompositionController_SendMouseInput
         (composition_controller_ t) COREWEBVIEW2_MOUSE_EVENT_KIND_MOVE
         (VirtualKeyState.state (virtual_keys_ t)) (UINT32_of_int 0) point ;;
  ret tt.

Definition SetPointerButtonState (button : WebviewPointerButton.t)
    (is_down : bool) : M unit :=
  kind <-
    match button with
    | WebviewPointerButton.Primary =>
        modify_this (fun t => with_virtual_keys
          (VirtualKeyState.set_isLeftButtonDown is_down (virtual_keys_ t)) t) ;;
        ret (if is_down then COREWEBVIEW2_MOUSE_EVENT_KIND_LEFT_BUTTON_DOWN
             else COREWEBVIEW2_MOUSE_EVENT_KIND_LEFT_BUTTON_UP)
    | WebviewPointerButton.Secondary =>
        modify_this (fun t => with_virtual_keys
          (VirtualKeyState.set_isRightButtonDown is_down (virtual_keys_ t)) t) ;;
        ret (if is_down then COREWEBVIEW2_MOUSE_EVENT_KIND_RIGHT_BUTTON_DOWN
             else COREWEBVIEW2_MOUSE_EVENT_KIND_RIGHT_BUTTON_UP)
    | WebviewPointerButton.Tertiary =>
        modify_this (fun t => with_virtual_keys
          (VirtualKeyState.set_isMiddleButtonDown is_down (virtual_keys_ t)) t) ;;
        ret (if is_down then COREWEBVIEW2_MOUSE_EVENT_KIND_MIDDLE_BUTTON_DOWN
             else COREWEBVIEW2_MOUSE_EVENT_KIND_MIDDLE_BUTTON_UP)
    | _ => ret (0 : COREWEBVIEW2_MOUSE_EVENT_KIND)
    end ;;
  t <- get_this ;;
  _ <- ICoreWebView2CompositionController_SendMouseInput
         (composition_controller_ t) kind
         (VirtualKeyState.state (virtual_keys_ t)) (UINT32_of_int 0)
         (last_cursor_pos_ t) ;;
  ret tt.

Definition kScrollMultiplier : Z := 6.

Definition SendScroll (delta : double) (horizontal : bool) : M unit :=
  let offset :=
    static_cast_short (Double.mul delta (Double.of_int kScrollMultiplier)) in
  t <- get_this ;;
  _ <- ICoreWebView2CompositionController_SendMouseInput
         (composition_controller_ t)
         COREWEBVIEW2_MOUSE_EVENT_KIND_X_BUTTON_DOWN
         COREWEBVIEW2_MOUSE_EVENT_VIRTUAL_KEYS_NONE (UINT32_of_int 0)
         (last_cursor_pos_ t) ;;
  _ <- (if horizontal
        then ICoreWebView2CompositionController_SendMouseInput
               (composition_controller_ t)
               COREWEBVIEW2_MOUSE_EVENT_KIND_HORIZONTAL_WHEEL
               (VirtualKeyState.state (virtual_keys_ t))
               (UINT32_of_short offset) (last_cursor_pos_ t)
        else ICoreWebView2CompositionController_SendMouseInput
               (composition_controller_ t)
               COREWEBVIEW2_MOUSE_EVENT_KIND_WHEEL
               (VirtualKeyState.state (virtual_keys_ t))
               (UINT32_of_short offset) (last_cursor_pos_ t)) ;;
  _ <- ICoreWebView2CompositionController_SendMouseInput
         (composition_controller_ t)
         COREWEBVIEW2_MOUSE_EVENT_KIND_X_BUTTON_UP
         COREWEBVIEW2_MOUSE_EVENT_VIRTUAL_KEYS_NONE (UINT32_of_int 0)
         (last_cursor_pos_ t) ;;
  ret tt.

Definition SetScrollDelta (delta_x delta_y : double) : M unit :=
  when (Double.neq delta_x Double.zero) (SendScroll delta_x true) ;;
  when (Double.neq delta_y Double.zero) (SendScroll delta_y false).

(** ** Vocabulary of the statements *)

(** The world after the native objects received [calls]. *)
Definition sent (w : World) (calls : list NativeCall) : World :=
  {| this := this w; native := native w ++ calls;
     cerr := cerr w; host := host w |}.

(** The three calls of one synthesized wheel event. *)
Definition scroll_calls (t : Webview) (delta : double)
    (horizontal : bool) : list NativeCall :=
  [ SendMouseInput COREWEBVIEW2_MOUSE_EVENT_KIND_X_BUTTON_DOWN
      COREWEBVIEW2_MOUSE_EVENT_VIRTUAL_KEYS_NONE 0 (last_cursor_pos_ t);
    SendMouseInput
      (if horizontal then COREWEBVIEW2_MOUSE_EVENT_KIND_HORIZONTAL_WHEEL
       else COREWEBVIEW2_MOUSE_EVENT_KIND_WHEEL)
      (VirtualKeyState.state (virtual_keys_ t))
      (UINT32_of_short
         (static_cast_short
            (Double.mul delta (Double.of_int 6))))
      (last_cursor_pos_ t);
    SendMouseInput COREWEBVIEW2_MOUSE_EVENT_KIND_X_BUTTON_UP
      COREWEBVIEW2_MOUSE_EVENT_VIRTUAL_KEYS_NONE 0 (last_cursor_pos_ t) ].

(** The virtual-key flag and the event kinds that go with a button. *)
Definition button_flag (button : WebviewPointerButton.t)
    : COREWEBVIEW2_MOUSE_EVENT_VIRTUAL_KEYS :=
  match button with
  | WebviewPointerButton.Primary =>
      COREWEBVIEW2_MOUSE_EVENT_VIRTUAL_KEYS_LEFT_BUTTON
  | WebviewPointerButton.Secondary =>
      COREWEBVIEW2_MOUSE_EVENT_VIRTUAL_KEYS_RIGHT_BUTTON
  | WebviewPointerButton.Tertiary =>
      COREWEBVIEW2_MOUSE_EVENT_VIRTUAL_KEYS_MIDDLE_BUTTON
  | WebviewPointerButton.None => COREWEBVIEW2_MOUSE_EVENT_VIRTUAL_KEYS_NONE
  end.

Definition button_down_kind (button : WebviewPointerButton.t)
    : COREWEBVIEW2_MOUSE_EVENT_KIND :=
  match button with
  | WebviewPointerButton.Primary =>
      COREWEBVIEW2_MOUSE_EVENT_KIND_LEFT_BUTTON_DOWN
  | WebviewPointerButton.Secondary =>
      COREWEBVIEW2_MOUSE_EVENT_KIND_RIGHT_BUTTON_DOWN
  | WebviewPointerButton.Tertiary =>
      COREWEBVIEW2_MOUSE_EVENT_KIND_MIDDLE_BUTTON_DOWN
  | WebviewPointerButton.None => 0
  end.

Definition button_up_kind (button : WebviewPointerButton.t)
    : COREWEBVIEW2_MOUSE_EVENT_KIND :=
  match button with
  | WebviewPointerButton.Primary =>
      COREWEBVIEW2_MOUSE_EVENT_KIND_LEFT_BUTTON_UP
  | WebviewPointerButton.Secondary =>
      COREWEBVIEW2_MOUSE_EVENT_KIND_RIGHT_BUTTON_UP
  | WebviewPointerButton.Tertiary =>
      COREWEBVIEW2_MOUSE_EVENT_KIND_MIDDLE_BUTTON_UP
  | WebviewPointerButton.None => 0
  end.

(** Whether bit [n] of the virtual-key state is set. *)
Definition key_down (v : VirtualKeyState.t) (n : Z) : bool :=
  Z.testbit (VirtualKeyState.state v) n.

(** Whether the callback that the handler of [e] reports to has a target. *)
Definition reports_to (e : NativeEvent) (t : Webview) : bool :=
  match e with
  | ContentLoading | NavigationCompleted =>
      has_target (loading_state_changed_callback_ t)
  | SourceChanged => has_target (url_changed_callback_ t)
  | DocumentTitleChanged => has_target (document_title_changed_callback_ t)
  | CursorChanged => has_target (cursor_changed_callback_ t)
  | GotFocus | LostFocus => has_target (focus_changed_callback_ t)
  end.

(** What reaches the object: a call of the host or an event of the
    control. *)
Inductive Call :=
| CallSetSurfaceSize (width height : size_t)
| CallClearCookies
| CallSetUserAgent (user_agent : string)
| CallSetCursorPos (x y : double)
| CallSetPointerButtonState (button : WebviewPointerButton.t) (is_down : bool)
| CallSendScroll (delta : double) (horizontal : bool)
| CallSetScrollDelta (delta_x delta_y : double)
| Raise (e : NativeEvent).

Definition perform (c : Call) : M unit :=
  match c with
  | CallSetSurfaceSize width height => SetSurfaceSize width height
  | CallClearCookies => _ <- ClearCookies ;; ret tt
  | CallSetUserAgent user_agent => _ <- SetUserAgent user_agent ;; ret tt
  | CallSetCursorPos x y => SetCursorPos x y
  | CallSetPointerButtonState button is_down =>
      SetPointerButtonState button is_down
  | CallSendScroll delta horizontal => SendScroll delta horizontal
  | CallSetScrollDelta delta_x delta_y => SetScrollDelta delta_x delta_y
  | Raise e => _ <- RegisterEventHandlers e ;; ret tt
  end.

Fixpoint perform_all (cs : list Call) : M unit :=
  match cs with
  | [] => ret tt
  | c :: cs' => perform c ;; perform_all cs'
  end.

(** The position recorded by the most recent [SetCursorPos] of [cs], or
    [p0] when [cs] has none. *)
Fixpoint recorded_position (cs : list Call) (p0 : POINT) : POINT :=
  match cs with
  | [] => p0
  | CallSetCursorPos x y :: cs' =>
      recorded_position cs' {| POINT.x := static_cast_LONG x;
                               POINT.y := static_cast_LONG y |}
  | _ :: cs' => recorded_position cs' p0
  end.

Definition is_mouse_input_at (p : POINT) (c : NativeCall) : Prop :=
  match c with
  | SendMouseInput _ _ _ q => q = p
  | _ => False
  end.

Definition is_synthetic_input (c : Call) : bool :=
  match c with
  | CallSetPointerButtonState _ _ | CallSendScroll _ _
  | CallSetScrollDelta _ _ => true
  | _ => false
  end.

(** *** Navigation

    [LoadUrl], [LoadStringContent] and [Reload] call the control and drop
    what it answers.  Their world is the world of the object together with
    the navigation calls the control received. *)

Record Browser := {
  world : World;
  navigator : Navigation.Results;
  navigation : list Navigation.Call
}.

Definition call_navigation (c : Navigation.Call) (answer : HRESULT)
    : Browser -> option (HRESULT * Browser) :=
  fun b => Some (answer, {| world := world b; navigator := navigator b;
                            navigation := navigation b ++ [c] |}).

Definition discard {A} (m : Browser -> option (A * Browser))
    : Browser -> option (unit * Browser) :=
  fun b => match m b with
           | Some (_, b') => Some (tt, b')
           | None => None
           end.

Definition LoadUrl (url : string) : Browser -> option (unit * Browser) :=
  fun b =>
    discard (call_navigation (Navigation.Navigate (c_str (towstring url)))
               (Navigation.Navigate_result (navigator b)
                  (c_str (towstring url)))) b.

Definition LoadStringContent (content : string)
    : Browser -> option (unit * Browser) :=
  fun b =>
    discard (call_navigation
               (Navigation.NavigateToString (c_str (towstring content)))
               (Navigation.NavigateToString_result (navigator b)
                  (c_str (towstring content)))) b.

Definition Reload : Browser -> option (unit * Browser) :=
  fun b =>
    discard (call_navigation Navigation.Reload
               (Navigation.Reload_result (navigator b))) b.

(** *** Vocabulary of the statements on sequences of calls *)

(** The virtual keys after [SetPointerButtonState button is_down]. *)
Definition keys_after (button : WebviewPointerButton.t) (is_down : bool)
    (v : VirtualKeyState.t) : VirtualKeyState.t :=
  match button with
  | WebviewPointerButton.None => v
  | _ => VirtualKeyState.set (button_flag button) is_down v
  end.

Definition button_kind (button : WebviewPointerButton.t) (is_down : bool)
    : COREWEBVIEW2_MOUSE_EVENT_KIND :=
  if is_down then button_down_kind button else button_up_kind button.

Fixpoint keys_after_calls (cs : list Call) (v : VirtualKeyState.t)
    : VirtualKeyState.t :=
  match cs with
  | [] => v
  | CallSetPointerButtonState button is_down :: cs' =>
      keys_after_calls cs' (keys_after button is_down v)
  | _ :: cs' => keys_after_calls cs' v
  end.


Definition failure_line : string := "Setting webview bounds failed.".

(** Whether call [c] writes the failure line: a resize with a surface whose
    bounds the control refuses. *)
Definition logs_failure (t : Webview) (c : Call) : bool :=
  match c with
  | CallSetSurfaceSize width height =>
      surface_ t &&
      negb (put_Bounds_result (webview_controller_ t)
              {| RECT.left := 0; RECT.top := 0;
                 RECT.right := LONG_of_size_t width;
                 RECT.bottom := LONG_of_size_t height |} =? S_OK)
  | _ => false
  end.

(** Whether call [c] finds a callback to invoke. *)
Definition reaches_host (t : Webview) (c : Call) : bool :=
  match c with
  | CallSetSurfaceSize _ _ =>
      surface_ t && has_target (surface_size_changed_callback_ t)
  | Raise e => reports_to e t
  | _ => false
  end.

(** The three calls of a synthesized wheel event of offset [offset]. *)
Definition wheel_calls (t : Webview) (horizontal : bool) (offset : short)
    : list NativeCall :=
  [ SendMouseInput COREWEBVIEW2_MOUSE_EVENT_KIND_X_BUTTON_DOWN
      COREWEBVIEW2_MOUSE_EVENT_VIRTUAL_KEYS_NONE 0 (last_cursor_pos_ t);
    SendMouseInput
      (if horizontal then COREWEBVIEW2_MOUSE_EVENT_KIND_HORIZONTAL_WHEEL
       else COREWEBVIEW2_MOUSE_EVENT_KIND_WHEEL)
      (VirtualKeyState.state (virtual_keys_ t))
      (UINT32_of_short offset) (last_cursor_pos_ t);
    SendMouseInput COREWEBVIEW2_MOUSE_EVENT_KIND_X_BUTTON_UP
      COREWEBVIEW2_MOUSE_EVENT_VIRTUAL_KEYS_NONE 0 (last_cursor_pos_ t) ].

(** Whether six times the integer [n], computed as [SendScroll] computes
    it, is the integer [6 * n]. *)
Definition scales_by_six (n : Z) : bool :=
  match Double.truncate (Double.mul (Double.of_int n)
                           (Double.of_int kScrollMultiplier)) with
  | Some z => z =? 6 * n
  | None => false
  end.

End Webview.

Arguments Webview : clear implicits.
Arguments World : clear implicits.
Arguments M : clear implicits.
Arguments callback : clear implicits.
Arguments Browser : clear implicits.

(** ** Concrete hosts, platforms and worlds *)

Module Example.

(** A host that keeps the list of the callbacks it received. *)
Inductive HostCall :=
| LoadingStateChanged (s : WebviewLoadingState.t)
| UrlChanged (url : string)
| DocumentTitleChanged (title : string)
| CursorChanged (cursor : HCURSOR)
| FocusChanged (focused : bool)
| SurfaceSizeChanged (size : size_t * size_t).

Definition Host := list HostCall.

Definition recording {A} (tag : A -> HostCall) : callback Host A :=
  Some (fun a h => h ++ [tag a]).

(** The x64 conversion instruction answers the 32-bit "integer indefinite"
    for what it cannot represent; a [short] keeps the low word of the
    32-bit conversion. *)
Definition x64_LONG (_ : double) : Z := - 2 ^ 31.

Definition x64_short (d : double) : Z :=
  match Double.truncate d with
  | Some z => if Int.in_signed 32 z then z else - 2 ^ 31
  | None => - 2 ^ 31
  end.

(** Narrow text, one [wchar_t] per [char]. *)
Definition narrow (s : wstring) : string :=
  string_of_list_ascii (map (fun c => ascii_of_N (Z.to_N (c mod 256))) s).

Definition controller : ICoreWebView2CompositionController :=
  {| SendMouseInput_result := fun _ _ _ _ => S_OK;
     get_Cursor_result := (S_OK, 65539) |}.

Definition accepting_bounds : ICoreWebView2Controller3 :=
  {| put_Bounds_result := fun _ => S_OK |}.

Definition rejecting_bounds : ICoreWebView2Controller3 :=
  {| put_Bounds_result := fun _ => E_FAIL |}.

Definition core : ICoreWebView2 :=
  {| CallDevToolsProtocolMethod_result := fun _ _ => S_OK;
     get_Source_result := (S_OK, L "about:blank");
     get_DocumentTitle_result := (S_OK, L "blank") |}.

Definition settings : ICoreWebView2Settings2 :=
  {| put_UserAgent_result := fun _ => S_OK |}.

(** Every callback set, pointer at (3, 4), right button held. *)
Definition listening (c3 : ICoreWebView2Controller3) : Webview Host :=
  {| composition_controller_ := controller;
     webview_controller_ := c3;
     webview_ := core;
     settings2_ := Some settings;
     surface_ := true;
     virtual_keys_ := {| VirtualKeyState.state_ := 2 |};
     last_cursor_pos_ := {| POINT.x := 3; POINT.y := 4 |};
     loading_state_changed_callback_ := recording LoadingStateChanged;
     url_changed_callback_ := recording UrlChanged;
     document_title_changed_callback_ := recording DocumentTitleChanged;
     cursor_changed_callback_ := recording CursorChanged;
     focus_changed_callback_ := recording FocusChanged;
     surface_size_changed_callback_ := recording SurfaceSizeChanged |}.

(** No callback set, no extended settings. *)
Definition silent : Webview Host :=
  {| composition_controller_ := controller;
     webview_controller_ := accepting_bounds;
     webview_ := core;
     settings2_ := None;
     surface_ := true;
     virtual_keys_ := VirtualKeyState.init;
     last_cursor_pos_ := {| POINT.x := 0; POINT.y := 0 |};
     loading_state_changed_callback_ := None;
     url_changed_callback_ := None;
     document_title_changed_callback_ := None;
     cursor_changed_callback_ := None;
     focus_changed_callback_ := None;
     surface_size_changed_callback_ := None |}.

Definition world_of (t : Webview Host) : World Host :=
  {| this := t; native := []; cerr := []; host := [] |}.

(** 2.5, -10.75 and 7000.0 as binary64 values. *)
Definition two_and_a_half : double := binary_normalize 53 1024 5 (-1) false.
Definition minus_ten_point_75 : double :=
  binary_normalize 53 1024 (-43) (-2) false.
Definition seven_thousand : double := Double.of_int 7000.


(** A control whose getters fail. *)
Definition mute_controller : ICoreWebView2CompositionController :=
  {| SendMouseInput_result := fun _ _ _ _ => E_FAIL;
     get_Cursor_result := (E_FAIL, 0) |}.

Definition mute_core : ICoreWebView2 :=
  {| CallDevToolsProtocolMethod_result := fun _ _ => E_FAIL;
     get_Source_result := (E_FAIL, []);
     get_DocumentTitle_result := (E_FAIL, []) |}.

(** Every callback set, every native call failing, no surface. *)
Definition listening_to_mute : Webview Host :=
  {| composition_controller_ := mute_controller;
     webview_controller_ := rejecting_bounds;
     webview_ := mute_core;
     settings2_ := Some settings;
     surface_ := false;
     virtual_keys_ := VirtualKeyState.init;
     last_cursor_pos_ := {| POINT.x := 0; POINT.y := 0 |};
     loading_state_changed_callback_ := recording LoadingStateChanged;
     url_changed_callback_ := recording UrlChanged;
     document_title_changed_callback_ := recording DocumentTitleChanged;
     cursor_changed_callback_ := recording CursorChanged;
     focus_changed_callback_ := recording FocusChanged;
     surface_size_changed_callback_ := recording SurfaceSizeChanged |}.

Definition refusing_navigation : Navigation.Results :=
  {| Navigation.Navigate_result := fun _ => E_FAIL;
     Navigation.NavigateToString_result := fun _ => E_FAIL;
     Navigation.Reload_result := E_FAIL |}.

Definition browser_of (t : Webview Host) : Browser Host :=
  {| world := world_of t; navigator := refusing_navigation;
     navigation := [] |}.

(** Only the loading-state callback set; only the focus callback set. *)
Definition loading_only : Webview Host :=
  {| composition_controller_ := controller;
     webview_controller_ := accepting_bounds;
     webview_ := core;
     settings2_ := None;
     surface_ := true;
     virtual_keys_ := VirtualKeyState.init;
     last_cursor_pos_ := {| POINT.x := 0; POINT.y := 0 |};
     loading_state_changed_callback_ := recording LoadingStateChanged;
     url_changed_callback_ := None;
     document_title_changed_callback_ := None;
     cursor_changed_callback_ := None;
     focus_changed_callback_ := None;
     surface_size_changed_callback_ := None |}.

Definition focus_only : Webview Host :=
  {| composition_controller_ := controller;
     webview_controller_ := accepting_bounds;
     webview_ := core;
     settings2_ := None;
     surface_ := true;
     virtual_keys_ := VirtualKeyState.init;
     last_cursor_pos_ := {| POINT.x := 0; POINT.y := 0 |};
     loading_state_changed_callback_ := None;
     url_changed_callback_ := None;
     document_title_changed_callback_ := None;
     cursor_changed_callback_ := None;
     focus_changed_callback_ := recording FocusChanged;
     surface_size_changed_callback_ := None |}.

(** The three [char]s 'a', NUL, 'b'. *)
Definition a_nul_b : string :=
  String "a" (String Ascii.zero (String "b" EmptyString)).

(** -0.75. *)
Definition minus_three_quarters : double :=
  binary_normalize 53 1024 (-3) (-2) false.

End Example.

(** * Properties *)

(** ** Integer and floating-point conversions *)

Lemma wrap_signed_range (bits z : Z) :
  0 < bits -> - 2 ^ (bits - 1) <= Int.wrap_signed bits z < 2 ^ (bits - 1).
Proof.
  intros Hb. unfold Int.wrap_signed.
  assert (H2 : 2 ^ bits = 2 * 2 ^ (bits - 1)).
  { replace bits with (Z.succ (bits - 1)) at 1 by lia.
    apply Z.pow_succ_r. lia. }
  assert (Hp : 0 < 2 ^ (bits - 1)) by (apply Z.pow_pos_nonneg; lia).
  pose proof (Z.mod_pos_bound (z + 2 ^ (bits - 1)) (2 ^ bits)) as Hm.
  lia.
Qed.

Lemma in_signed_spec (bits z : Z) :
  Int.in_signed bits z = true <-> - 2 ^ (bits - 1) <= z < 2 ^ (bits - 1).
Proof.
  unfold Int.in_signed. rewrite andb_true_iff, Z.leb_le, Z.ltb_lt. tauto.
Qed.

(** [Double.truncate] drops the fractional bits: for a negative exponent
    the result [q] is the one integer with [q * 2^-e <= m < (q+1) * 2^-e],
    taken with the sign of the value. *)
Lemma truncate_finite (s : bool) (m : positive) (e : Z) :
  exists q, Double.truncate (S754_finite s m e) = Some (cond_Zopp s q) /\
    0 <= q /\
    (0 <= e -> q = Zpos m * 2 ^ e) /\
    (e < 0 -> q * 2 ^ (- e) <= Zpos m < (q + 1) * 2 ^ (- e)).
Proof.
  simpl. destruct (0 <=? e) eqn:He.
  - apply Z.leb_le in He. exists (Zpos m * 2 ^ e).
    split; [reflexivity|]. split; [|split; [reflexivity | lia]].
    apply Z.mul_nonneg_nonneg; [lia | apply Z.pow_nonneg; lia].
  - apply Z.leb_gt in He. exists (Zpos m / 2 ^ (- e)).
    assert (Hp : 0 < 2 ^ (- e)) by (apply Z.pow_pos_nonneg; lia).
    pose proof (Z.mod_pos_bound (Zpos m) (2 ^ (- e)) Hp) as Hm.
    pose proof (Z.div_mod (Zpos m) (2 ^ (- e))) as Hd.
    split; [reflexivity|]. split; [|split; [lia|]].
    + apply Z.div_pos; lia.
    + intros _. nia.
Qed.

Section Properties.

Context {Host : Type}.
Variable unrepresentable_LONG : double -> Z.
Variable unrepresentable_short : double -> Z.
Variable CW2A : wstring -> string.

Lemma static_cast_short_range (d : double) :
  - 32768 <= static_cast_short unrepresentable_short d <= 32767.
Proof.
  unfold static_cast_short.
  pose proof (wrap_signed_range 16 (unrepresentable_short d) eq_refl) as Hw.
  change (2 ^ (16 - 1)) with 32768 in Hw.
  destruct (Double.truncate d) as [z|]; [|lia].
  destruct (Int.in_signed 16 z) eqn:Hz; [|lia].
  apply in_signed_spec in Hz. change (2 ^ (16 - 1)) with 32768 in Hz. lia.
Qed.

Lemma static_cast_short_exact (d : double) (z : Z) :
  Double.truncate d = Some z -> - 32768 <= z <= 32767 ->
  static_cast_short unrepresentable_short d = z.
Proof.
  intros Ht Hz. unfold static_cast_short. rewrite Ht.
  replace (Int.in_signed 16 z) with true; [reflexivity|].
  symmetry. apply in_signed_spec. change (2 ^ (16 - 1)) with 32768. lia.
Qed.

Lemma static_cast_LONG_range (d : double) :
  - 2147483648 <= static_cast_LONG unrepresentable_LONG d <= 2147483647.
Proof.
  unfold static_cast_LONG.
  pose proof (wrap_signed_range 32 (unrepresentable_LONG d) eq_refl) as Hw.
  change (2 ^ (32 - 1)) with 2147483648 in Hw.
  destruct (Double.truncate d) as [z|]; [|lia].
  destruct (Int.in_signed 32 z) eqn:Hz; [|lia].
  apply in_signed_spec in Hz. change (2 ^ (32 - 1)) with 2147483648 in Hz.
  lia.
Qed.

Lemma static_cast_LONG_exact (d : double) (z : Z) :
  Double.truncate d = Some z -> - 2147483648 <= z <= 2147483647 ->
  static_cast_LONG unrepresentable_LONG d = z.
Proof.
  intros Ht Hz. unfold static_cast_LONG. rewrite Ht.
  replace (Int.in_signed 32 z) with true; [reflexivity|].
  symmetry. apply in_signed_spec. change (2 ^ (32 - 1)) with 2147483648. lia.
Qed.

(** ** Running the primitive computations *)

Lemma sent_nil (w : World Host) : sent w [] = w.
Proof. destruct w. unfold sent. simpl. now rewrite app_nil_r. Qed.

Lemma sent_sent (w : World Host) (a b : list NativeCall) :
  sent (sent w a) b = sent w (a ++ b).
Proof. unfold sent. simpl. now rewrite app_assoc. Qed.

Lemma SendMouseInput_run (c : ICoreWebView2CompositionController)
    (k vk data : Z) (p : POINT) (w : World Host) :
  ICoreWebView2CompositionController_SendMouseInput c k vk data p w =
  Some (SendMouseInput_result c k vk data p, sent w [SendMouseInput k vk data p]).
Proof. reflexivity. Qed.

Lemma SendScroll_run (delta : double) (horizontal : bool) (w : World Host) :
  SendScroll unrepresentable_short delta horizontal w =
  Some (tt, sent w (scroll_calls unrepresentable_short (this w) delta
                      horizontal)).
Proof.
  unfold SendScroll, bind, get_this, ret.
  rewrite SendMouseInput_run.
  destruct horizontal; rewrite !SendMouseInput_run, !sent_sent; reflexivity.
Qed.

(** ** Pointer buttons *)

Lemma set_key_down (k : Z) (flag : bool) (v : VirtualKeyState.t) (n : Z) :
  0 <= k ->
  key_down (VirtualKeyState.set (2 ^ k) flag v) n =
  if n =? k then flag else key_down v n.
Proof.
  intros Hk. unfold key_down, VirtualKeyState.state, VirtualKeyState.set.
  destruct (Z.ltb_spec n 0) as [Hn|Hn].
  - rewrite !Z.testbit_neg_r by lia.
    destruct (Z.eqb_spec n k); [lia | reflexivity].
  - destruct flag; simpl.
    + rewrite Z.lor_spec, Z.pow2_bits_eqb by lia. rewrite (Z.eqb_sym k n).
      destruct (n =? k); [apply orb_true_r | apply orb_false_r].
    + rewrite Z.land_spec, Z.lnot_spec, Z.pow2_bits_eqb by lia.
      rewrite (Z.eqb_sym k n).
      destruct (n =? k); [apply andb_false_r | apply andb_true_r].
Qed.

(** C4. For each of the buttons Primary, Secondary and Tertiary and each
    [is_down], [SetPointerButtonState] stores [is_down] in the left, right
    or middle flag of the virtual-key state, keeps every other bit, and
    sends exactly one mouse input: the button's down kind when [is_down]
    and its up kind otherwise, with the updated virtual-key state, no mouse
    data, at the last cursor position. *)
Theorem SetPointerButtonState_forwards (button : WebviewPointerButton.t)
    (is_down : bool) (w : World Host) :
  In button [WebviewPointerButton.Primary; WebviewPointerButton.Secondary;
             WebviewPointerButton.Tertiary] ->
  let keys :=
    VirtualKeyState.set (button_flag button) is_down (virtual_keys_ (this w)) in
  SetPointerButtonState button is_down w =
    Some (tt, {| this := with_virtual_keys keys (this w);
                 native := native w ++
                   [SendMouseInput
                      (if is_down then button_down_kind button
                       else button_up_kind button)
                      (VirtualKeyState.state keys) 0
                      (last_cursor_pos_ (this w))];
                 cerr := cerr w; host := host w |}) /\
  (forall n, key_down keys n =
     if n =? Z.log2 (button_flag button) then is_down
     else key_down (virtual_keys_ (this w)) n).
Proof.
  intros Hin keys. split.
  - destruct Hin as [<-|[<-|[<-|[]]]]; destruct is_down; reflexivity.
  - intros n. subst keys.
    destruct Hin as [<-|[<-|[<-|[]]]]; simpl button_flag.
    + apply (set_key_down 0); lia.
    + apply (set_key_down 1); lia.
    + apply (set_key_down 4); lia.
Qed.

(** C10. For a button outside Primary, Secondary and Tertiary and either
    [is_down], [SetPointerButtonState] leaves the object, and so the
    virtual-key state, as it was and still sends one mouse input: kind 0,
    the unchanged virtual-key state, no mouse data, at the last cursor
    position. *)
Theorem SetPointerButtonState_default (button : WebviewPointerButton.t)
    (is_down : bool) (w : World Host) :
  ~ In button [WebviewPointerButton.Primary; WebviewPointerButton.Secondary;
               WebviewPointerButton.Tertiary] ->
  SetPointerButtonState button is_down w =
    Some (tt, {| this := this w;
                 native := native w ++
                   [SendMouseInput 0
                      (VirtualKeyState.state (virtual_keys_ (this w))) 0
                      (last_cursor_pos_ (this w))];
                 cerr := cerr w; host := host w |}).
Proof.
  intros Hout. destruct button; try reflexivity; exfalso; apply Hout;
    simpl; auto.
Qed.

(** ** Cursor position *)

(** C7. [SetCursorPos x y] converts each coordinate to LONG, stores the
    point as the last cursor position and sends exactly one mouse-move
    input at that point with the current virtual-key state and mouse data
    0.  Each converted coordinate is a LONG, and it is the integral part of
    the coordinate, rounded toward zero, whenever that fits a LONG. *)
Theorem SetCursorPos_truncates (x y : double) (w : World Host) :
  let point := {| POINT.x := static_cast_LONG unrepresentable_LONG x;
                  POINT.y := static_cast_LONG unrepresentable_LONG y |} in
  SetCursorPos unrepresentable_LONG x y w =
    Some (tt, {| this := with_last_cursor_pos point (this w);
                 native := native w ++
                   [SendMouseInput COREWEBVIEW2_MOUSE_EVENT_KIND_MOVE
                      (VirtualKeyState.state (virtual_keys_ (this w))) 0
                      point];
                 cerr := cerr w; host := host w |}) /\
  last_cursor_pos_ (with_last_cursor_pos point (this w)) = point /\
  (- 2147483648 <= POINT.x point <= 2147483647) /\
  (- 2147483648 <= POINT.y point <= 2147483647) /\
  (forall z, Double.truncate x = Some z ->
     - 2147483648 <= z <= 2147483647 -> POINT.x point = z) /\
  (forall z, Double.truncate y = Some z ->
     - 2147483648 <= z <= 2147483647 -> POINT.y point = z).
Proof.
  intros point. repeat split.
  - apply static_cast_LONG_range.
  - apply static_cast_LONG_range.
  - apply static_cast_LONG_range.
  - apply static_cast_LONG_range.
  - intros z Ht Hz. now apply static_cast_LONG_exact.
  - intros z Ht Hz. now apply static_cast_LONG_exact.
Qed.

(** ** Scrolling *)

(** C1. For every delta and orientation, [SendScroll] sends exactly three
    mouse inputs, all at the last cursor position: X-button-down with no
    virtual keys, then the wheel event (horizontal wheel when [horizontal],
    vertical wheel otherwise) with the current virtual-key state and the
    offset, then X-button-up with no virtual keys.  The offset is
    [delta * 6] converted to a 16-bit integer: always within the 16-bit
    range, and the integral part of the product, rounded toward zero,
    whenever that fits. *)
Theorem SendScroll_toggles_x_button (delta : double) (horizontal : bool)
    (w : World Host) :
  let offset :=
    static_cast_short unrepresentable_short
      (Double.mul delta (Double.of_int 6)) in
  SendScroll unrepresentable_short delta horizontal w =
    Some (tt, {| this := this w;
                 native := native w ++
                   [SendMouseInput COREWEBVIEW2_MOUSE_EVENT_KIND_X_BUTTON_DOWN
                      COREWEBVIEW2_MOUSE_EVENT_VIRTUAL_KEYS_NONE 0
                      (last_cursor_pos_ (this w));
                    SendMouseInput
                      (if horizontal
                       then COREWEBVIEW2_MOUSE_EVENT_KIND_HORIZONTAL_WHEEL
                       else COREWEBVIEW2_MOUSE_EVENT_KIND_WHEEL)
                      (VirtualKeyState.state (virtual_keys_ (this w)))
                      (UINT32_of_short offset)
                      (last_cursor_pos_ (this w));
                    SendMouseInput COREWEBVIEW2_MOUSE_EVENT_KIND_X_BUTTON_UP
                      COREWEBVIEW2_MOUSE_EVENT_VIRTUAL_KEYS_NONE 0
                      (last_cursor_pos_ (this w))];
                 cerr := cerr w; host := host w |}) /\
  (- 32768 <= offset <= 32767) /\
  (forall z, Double.truncate (Double.mul delta (Double.of_int 6)) = Some z ->
     - 32768 <= z <= 32767 -> offset = z) /\
  Int.wrap_signed 16 (UINT32_of_short offset) = offset.
Proof.
  intros offset. split; [apply SendScroll_run|].
  pose proof (static_cast_short_range
                (Double.mul delta (Double.of_int 6))) as Hr.
  fold offset in Hr. split; [exact Hr|]. split.
  - intros z Ht Hz. now apply static_cast_short_exact.
  - unfold UINT32_of_short, Int.wrap_unsigned, Int.wrap_signed.
    change (2 ^ (16 - 1)) with 32768. change (2 ^ 16) with 65536.
    change (2 ^ 32) with 4294967296.
    pose proof (Z.div_mod offset 4294967296 ltac:(lia)) as Hd.
    replace (offset mod 4294967296 + 32768)
      with (offset + 32768 + (- 65536 * (offset / 4294967296)) * 65536)
      by lia.
    rewrite Z.mod_add by lia. rewrite Z.mod_small by lia. lia.
Qed.

Lemma neq_zero_false (d : double) :
  Double.neq d Double.zero = false <-> exists s, d = S754_zero s.
Proof.
  unfold Double.neq, Double.zero, SFeqb. split.
  - destruct d as [s|s| |s m e]; simpl; try discriminate.
    + intros _. now exists s.
    + destruct s; discriminate.
    + destruct s; discriminate.
  - intros [s ->]. reflexivity.
Qed.

Lemma SetScrollDelta_run (delta_x delta_y : double) (w : World Host) :
  SetScrollDelta unrepresentable_short delta_x delta_y w =
  Some (tt, sent w
    ((if Double.neq delta_x Double.zero
      then scroll_calls unrepresentable_short (this w) delta_x true
      else []) ++
     (if Double.neq delta_y Double.zero
      then scroll_calls unrepresentable_short (this w) delta_y false
      else []))).
Proof.
  unfold SetScrollDelta, bind, when.
  destruct (Double.neq delta_x Double.zero),
           (Double.neq delta_y Double.zero);
    rewrite ?SendScroll_run; unfold ret; rewrite ?SendScroll_run;
    rewrite ?sent_sent, ?app_nil_r; try reflexivity.
  now rewrite sent_nil.
Qed.

(** C5. [SetScrollDelta delta_x delta_y] forwards a horizontal scroll of
    [delta_x] exactly when [delta_x != 0.0] and then a vertical scroll of
    [delta_y] exactly when [delta_y != 0.0]; the comparison fails exactly
    for the two zeros, and when it fails for both deltas nothing is sent
    and the world stays as it was. *)
Theorem SetScrollDelta_forwards (delta_x delta_y : double) (w : World Host) :
  SetScrollDelta unrepresentable_short delta_x delta_y w =
    Some (tt, {| this := this w;
                 native := native w ++
                   (if Double.neq delta_x Double.zero
                    then scroll_calls unrepresentable_short (this w)
                           delta_x true
                    else []) ++
                   (if Double.neq delta_y Double.zero
                    then scroll_calls unrepresentable_short (this w)
                           delta_y false
                    else []);
                 cerr := cerr w; host := host w |}) /\
  (forall delta horizontal,
     SendScroll unrepresentable_short delta horizontal w =
       Some (tt, {| this := this w;
                    native := native w ++
                      scroll_calls unrepresentable_short (this w) delta
                        horizontal;
                    cerr := cerr w; host := host w |})) /\
  (forall delta, Double.neq delta Double.zero = false <->
                 exists s, delta = S754_zero s) /\
  (Double.neq delta_x Double.zero = false ->
   Double.neq delta_y Double.zero = false ->
   SetScrollDelta unrepresentable_short delta_x delta_y w = Some (tt, w)).
Proof.
  pose proof SetScrollDelta_run as Hrun. unfold sent in Hrun.
  split; [apply Hrun|]. split; [intros; apply SendScroll_run|].
  split; [apply neq_zero_false|].
  intros Hx Hy. rewrite Hrun, Hx, Hy. simpl. rewrite app_nil_r.
  now destruct w.
Qed.

(** ** Results of native calls *)

Lemma ClearCookies_run (w : World Host) :
  ClearCookies w =
  Some (CallDevToolsProtocolMethod_result (webview_ (this w))
          (L "Network.clearBrowserCookies") (L "{}") =? S_OK,
        {| this := this w;
           native := native w ++
             [CallDevToolsProtocolMethod (L "Network.clearBrowserCookies")
                (L "{}")];
           cerr := cerr w; host := host w |}).
Proof. reflexivity. Qed.

Lemma SetUserAgent_run (user_agent : string) (w : World Host) :
  SetUserAgent user_agent w =
  Some (match settings2_ (this w) with
        | Some settings2 =>
            (put_UserAgent_result settings2 (c_str (towstring user_agent))
             =? S_OK,
             {| this := this w;
                native := native w ++
                  [put_UserAgent (c_str (towstring user_agent))];
                cerr := cerr w; host := host w |})
        | None => (false, w)
        end).
Proof.
  unfold SetUserAgent, bind, get_this.
  destruct (settings2_ (this w)); reflexivity.
Qed.

(** C3. [ClearCookies] makes the one DevTools call
    [Network.clearBrowserCookies] and answers true exactly when that call
    answers S_OK.  [SetUserAgent] answers true exactly when the extended
    settings object is there and its [put_UserAgent] answers S_OK; with the
    settings object it makes that one call, without it none.  Neither does
    anything else with the result: the object, the error stream and the
    host stay as they were and no other native call is made. *)
Theorem native_result_as_bool (user_agent : string) (w : World Host) :
  (exists b,
     ClearCookies w =
       Some (b, {| this := this w;
                   native := native w ++
                     [CallDevToolsProtocolMethod
                        (L "Network.clearBrowserCookies") (L "{}")];
                   cerr := cerr w; host := host w |}) /\
     (b = true <->
      CallDevToolsProtocolMethod_result (webview_ (this w))
        (L "Network.clearBrowserCookies") (L "{}") = S_OK)) /\
  (exists b,
     SetUserAgent user_agent w =
       Some (b, match settings2_ (this w) with
                | Some _ =>
                    {| this := this w;
                       native := native w ++
                         [put_UserAgent (c_str (towstring user_agent))];
                       cerr := cerr w; host := host w |}
                | None => w
                end) /\
     (b = true <->
      exists settings2, settings2_ (this w) = Some settings2 /\
        put_UserAgent_result settings2 (c_str (towstring user_agent))
        = S_OK)).
Proof.
  split.
  - eexists. split; [apply ClearCookies_run | apply Z.eqb_eq].
  - rewrite SetUserAgent_run.
    destruct (settings2_ (this w)) as [settings2|].
    + eexists. split; [reflexivity|]. rewrite Z.eqb_eq. split.
      * intros Hr. exists settings2. auto.
      * intros [s2 [Heq Hr]]. now inversion Heq; subst.
    + eexists. split; [reflexivity|].
      split; [discriminate|]. intros [s2 [Heq _]]. discriminate.
Qed.

(** C2, as the code has it.  [ClearCookies] and [SetUserAgent] hand the
    result of their native call to the host as their boolean result.
    [SetSurfaceSize] does not: it returns nothing.  With a surface it sets
    the size of the visual and the bounds of the control; when [put_Bounds]
    does not answer S_OK it writes one line to the error stream and goes on
    as after a success: the surface-size-changed callback, when set, is
    invoked with the width and the height.  Without a surface it does
    nothing. *)
Theorem SetSurfaceSize_logs_and_continues (width height : size_t)
    (user_agent : string) (w : World Host) :
  let bounds := {| RECT.left := 0; RECT.top := 0;
                   RECT.right := LONG_of_size_t width;
                   RECT.bottom := LONG_of_size_t height |} in
  let hr := put_Bounds_result (webview_controller_ (this w)) bounds in
  SetSurfaceSize width height w =
    Some (tt,
      if surface_ (this w)
      then {| this := this w;
              native := native w ++
                [Visual_Size (float_of_size_t width) (float_of_size_t height);
                 put_Bounds bounds];
              cerr := cerr w ++
                (if hr =? S_OK then []
                 else ["Setting webview bounds failed."%string]);
              host := match surface_size_changed_callback_ (this w) with
                      | Some f => f (width, height) (host w)
                      | None => host w
                      end |}
      else w) /\
  ClearCookies w =
    Some (CallDevToolsProtocolMethod_result (webview_ (this w))
            (L "Network.clearBrowserCookies") (L "{}") =? S_OK,
          {| this := this w;
             native := native w ++
               [CallDevToolsProtocolMethod (L "Network.clearBrowserCookies")
                  (L "{}")];
             cerr := cerr w; host := host w |}) /\
  SetUserAgent user_agent w =
    Some (match settings2_ (this w) with
          | Some settings2 =>
              (put_UserAgent_result settings2 (c_str (towstring user_agent))
               =? S_OK,
               {| this := this w;
                  native := native w ++
                    [put_UserAgent (c_str (towstring user_agent))];
                  cerr := cerr w; host := host w |})
          | None => (false, w)
          end).
Proof.
  intros bounds hr. subst hr bounds.
  split; [|split; [apply ClearCookies_run | apply SetUserAgent_run]].
  destruct w as [t calls err h].
  cbv [SetSurfaceSize bind get_this when Visual_put_Size
       ICoreWebView2Controller_put_Bounds call_native write_cerr invoke
       ret].
  cbn [this native cerr host].
  destruct (surface_ t); [|reflexivity].
  match goal with |- context [?hr =? S_OK] => destruct (hr =? S_OK) end;
    cbn [negb this native cerr host];
    destruct (surface_size_changed_callback_ t);
    cbn [has_target this native cerr host];
    rewrite <- ?app_assoc, ?app_nil_r; reflexivity.
Qed.

(** ** Handlers *)

Ltac run_handler :=
  cbv [RegisterEventHandlers on_ContentLoading on_NavigationCompleted
       on_SourceChanged on_DocumentTitleChanged on_CursorChanged on_GotFocus
       on_LostFocus ICoreWebView2_get_Source ICoreWebView2_get_DocumentTitle
       ICoreWebView2CompositionController_get_Cursor bind get_this when
       call_native invoke ret];
  cbn [this native cerr host has_target].

(** C6. The handler of ContentLoading calls the loading-state callback,
    when it is set, with Loading, and that of NavigationCompleted calls it
    with NavigationCompleted; the handler of GotFocus calls the focus
    callback, when it is set, with true, and that of LostFocus calls it
    with false.  Each depends on its own callback alone, answers S_OK and
    touches nothing else. *)
Theorem handlers_translate (w : World Host) :
  (forall f, loading_state_changed_callback_ (this w) = Some f ->
     RegisterEventHandlers CW2A ContentLoading w =
       Some (S_OK, {| this := this w; native := native w; cerr := cerr w;
                      host := f WebviewLoadingState.Loading (host w) |})) /\
  (forall f, loading_state_changed_callback_ (this w) = Some f ->
     RegisterEventHandlers CW2A NavigationCompleted w =
       Some (S_OK, {| this := this w; native := native w; cerr := cerr w;
                      host := f WebviewLoadingState.NavigationCompleted
                                (host w) |})) /\
  (forall g, focus_changed_callback_ (this w) = Some g ->
     RegisterEventHandlers CW2A GotFocus w =
       Some (S_OK, {| this := this w; native := native w; cerr := cerr w;
                      host := g true (host w) |})) /\
  (forall g, focus_changed_callback_ (this w) = Some g ->
     RegisterEventHandlers CW2A LostFocus w =
       Some (S_OK, {| this := this w; native := native w; cerr := cerr w;
                      host := g false (host w) |})).
Proof.
  destruct w as [t calls err h]. cbn [this native cerr host].
  repeat split; intros f Hf; run_handler; rewrite Hf; run_handler;
    reflexivity.
Qed.

Lemma handler_returns (e : NativeEvent) (w : World Host) :
  exists w', RegisterEventHandlers CW2A e w = Some (S_OK, w') /\
             this w' = this w.
Proof.
  destruct w as [t calls err h].
  destruct e; run_handler;
    match goal with |- context [has_target ?c] => destruct c end;
    run_handler;
    try match goal with
        | |- context [?a =? S_OK] => destruct (a =? S_OK)
        end;
    run_handler; eexists; split; reflexivity.
Qed.

(** C8. The handler of every event answers S_OK whatever the callbacks
    are, so it never calls an empty callback; and when the callback it
    reports to is empty it leaves the world as it was: the host is not
    reached and no native getter is called. *)
Theorem handlers_guard_callbacks (e : NativeEvent) (w : World Host) :
  (exists w', RegisterEventHandlers CW2A e w = Some (S_OK, w')) /\
  (reports_to e (this w) = false ->
   RegisterEventHandlers CW2A e w = Some (S_OK, w)).
Proof.
  split.
  - destruct (handler_returns e w) as [w' [Hr _]]. eauto.
  - destruct w as [t calls err h]. cbn [this].
    destruct e; unfold reports_to; intros Hno; run_handler;
      destruct (has_target _); try discriminate; reflexivity.
Qed.

(** ** The last cursor position *)

Lemma recorded_position_cons (c : Call) (cs : list Call) (p : POINT) :
  recorded_position unrepresentable_LONG (c :: cs) p =
  recorded_position unrepresentable_LONG cs
    (recorded_position unrepresentable_LONG [c] p).
Proof. destruct c; reflexivity. Qed.

Lemma SetPointerButtonState_run (button : WebviewPointerButton.t)
    (is_down : bool) (w : World Host) :
  exists keys kind,
    SetPointerButtonState button is_down w =
    Some (tt, sent {| this := with_virtual_keys keys (this w);
                      native := native w; cerr := cerr w; host := host w |}
                [SendMouseInput kind (VirtualKeyState.state keys) 0
                   (last_cursor_pos_ (this w))]).
Proof.
  destruct w as [t calls err h], t, button; do 2 eexists; reflexivity.
Qed.

Lemma SetSurfaceSize_keeps_this (width height : size_t) (w : World Host) :
  exists w', SetSurfaceSize width height w = Some (tt, w') /\
             this w' = this w.
Proof.
  destruct w as [t calls err h].
  cbv [SetSurfaceSize bind get_this when Visual_put_Size
       ICoreWebView2Controller_put_Bounds call_native write_cerr invoke ret].
  cbn [this native cerr host].
  destruct (surface_ t); [|eexists; split; reflexivity].
  match goal with |- context [?hr =? S_OK] => destruct (hr =? S_OK) end;
    cbn [negb this native cerr host];
    destruct (surface_size_changed_callback_ t);
    cbn [has_target this native cerr host];
    eexists; split; reflexivity.
Qed.

Lemma SetUserAgent_keeps_this (user_agent : string) (w : World Host) :
  exists b w', SetUserAgent user_agent w = Some (b, w') /\ this w' = this w.
Proof.
  destruct w as [t calls err h]. unfold SetUserAgent, bind, get_this.
  cbn [this]. destruct (settings2_ t); do 2 eexists; split; reflexivity.
Qed.

(** Every call runs to completion, and only [SetCursorPos] moves the
    recorded position. *)
Lemma perform_position (c : Call) (w : World Host) :
  exists w',
    perform unrepresentable_LONG unrepresentable_short CW2A c w =
      Some (tt, w') /\
    last_cursor_pos_ (this w') =
      recorded_position unrepresentable_LONG [c] (last_cursor_pos_ (this w)).
Proof.
  destruct c; cbn [perform recorded_position].
  - destruct (SetSurfaceSize_keeps_this width height w) as [w' [-> Ht]].
    exists w'. now rewrite Ht.
  - eexists. split; reflexivity.
  - unfold bind.
    destruct (SetUserAgent_keeps_this user_agent w) as [b [w' [-> Ht]]].
    exists w'. now rewrite Ht.
  - eexists. split; reflexivity.
  - destruct (SetPointerButtonState_run button is_down w)
      as [keys [kind ->]]. eauto.
  - rewrite SendScroll_run. eauto.
  - rewrite SetScrollDelta_run. eauto.
  - unfold bind. destruct (handler_returns e w) as [w' [-> Ht]].
    exists w'. now rewrite Ht.
Qed.

Lemma perform_all_position (cs : list Call) (w0 : World Host) :
  exists w,
    perform_all unrepresentable_LONG unrepresentable_short CW2A cs w0 =
      Some (tt, w) /\
    last_cursor_pos_ (this w) =
      recorded_position unrepresentable_LONG cs (last_cursor_pos_ (this w0)).
Proof.
  revert w0. induction cs as [|c cs IH]; intros w0.
  - exists w0. split; reflexivity.
  - destruct (perform_position c w0) as [w1 [Hrun Hpos]].
    destruct (IH w1) as [w [Hall Hw]].
    exists w. split.
    + cbn [perform_all]. unfold bind. now rewrite Hrun.
    + now rewrite recorded_position_cons, <- Hpos.
Qed.

Lemma scroll_calls_at (t : Webview Host) (delta : double) (horizontal : bool) :
  Forall (is_mouse_input_at (last_cursor_pos_ t))
    (scroll_calls unrepresentable_short t delta horizontal).
Proof. repeat constructor. Qed.

Lemma synthetic_input_at_last_position (c : Call) (w : World Host) :
  is_synthetic_input c = true ->
  exists w' calls,
    perform unrepresentable_LONG unrepresentable_short CW2A c w =
      Some (tt, w') /\
    native w' = native w ++ calls /\
    Forall (is_mouse_input_at (last_cursor_pos_ (this w))) calls /\
    last_cursor_pos_ (this w') = last_cursor_pos_ (this w).
Proof.
  destruct c; try discriminate; intros _; cbn [perform].
  - destruct (SetPointerButtonState_run button is_down w)
      as [keys [kind ->]].
    do 2 eexists. split; [reflexivity|]. split; [reflexivity|].
    split; [|reflexivity]. repeat constructor.
  - rewrite SendScroll_run.
    do 2 eexists. split; [reflexivity|]. split; [reflexivity|].
    split; [|reflexivity]. apply scroll_calls_at.
  - rewrite SetScrollDelta_run.
    do 2 eexists. split; [reflexivity|]. split; [reflexivity|].
    split; [|reflexivity]. apply Forall_app.
    split; [destruct (Double.neq delta_x Double.zero)
           | destruct (Double.neq delta_y Double.zero)];
      auto using scroll_calls_at.
Qed.

(** C9. After any sequence of calls and events, run from any world, the
    last-cursor-position field holds the point recorded by the most recent
    [SetCursorPos] of the sequence, or its initial value when the sequence
    has none.  In the world reached, [SetPointerButtonState], [SendScroll]
    and [SetScrollDelta] send mouse inputs only, each at that point, and
    leave the field as it is. *)
Theorem last_cursor_pos_anchors_input (cs : list Call) (w0 : World Host) :
  exists w,
    perform_all unrepresentable_LONG unrepresentable_short CW2A cs w0 =
      Some (tt, w) /\
    last_cursor_pos_ (this w) =
      recorded_position unrepresentable_LONG cs (last_cursor_pos_ (this w0)) /\
    forall c, is_synthetic_input c = true ->
      exists w' calls,
        perform unrepresentable_LONG unrepresentable_short CW2A c w =
          Some (tt, w') /\
        native w' = native w ++ calls /\
        Forall (is_mouse_input_at
                  (recorded_position unrepresentable_LONG cs
                     (last_cursor_pos_ (this w0)))) calls /\
        last_cursor_pos_ (this w') =
          recorded_position unrepresentable_LONG cs
            (last_cursor_pos_ (this w0)).
Proof.
  destruct (perform_all_position cs w0) as [w [Hrun Hpos]].
  exists w. split; [exact Hrun|]. split; [exact Hpos|].
  intros c Hc. rewrite <- Hpos.
  now apply synthetic_input_at_last_position.
Qed.

(** * Further properties of the code *)

(** ** Widening of text *)

Lemma wchar_t_of_char_cases (c : ascii) :
  wchar_t_of_char c =
  if Z.of_N (N_of_ascii c) <? 128 then Z.of_N (N_of_ascii c)
  else Z.of_N (N_of_ascii c) + 0xFF00.
Proof. destruct c as [[] [] [] [] [] [] [] []]; reflexivity. Qed.

Lemma wchar_t_of_char_low_byte (c : ascii) :
  ascii_of_N (Z.to_N (wchar_t_of_char c mod 256)) = c.
Proof. destruct c as [[] [] [] [] [] [] [] []]; reflexivity. Qed.

Lemma N_of_ascii_bound (c : ascii) : 0 <= Z.of_N (N_of_ascii c) < 256.
Proof. destruct c as [[] [] [] [] [] [] [] []]; simpl; lia. Qed.

(** X1. [towstring] widens each [char] on its own, keeping the length: a
    [char] below 0x80 keeps its value and a [char] from 0x80 on, being
    negative, arrives as its value plus 0xFF00.  So no wide character of
    the result lies between 0x80 and 0xFF7F. *)
Theorem towstring_sign_extends (str : string) :
  towstring str =
    map (fun c => if Z.of_N (N_of_ascii c) <? 128 then Z.of_N (N_of_ascii c)
                  else Z.of_N (N_of_ascii c) + 0xFF00)
      (list_ascii_of_string str) /\
  List.length (towstring str) = String.length str /\
  Forall (fun u => 0 <= u < 0x80 \/ 0xFF80 <= u <= 0xFFFF) (towstring str).
Proof.
  unfold towstring. split; [|split].
  - apply map_ext. exact wchar_t_of_char_cases.
  - rewrite length_map. induction str as [|c str IH]; simpl; congruence.
  - apply Forall_forall. intros u Hu. apply in_map_iff in Hu.
    destruct Hu as [c [<- _]]. rewrite wchar_t_of_char_cases.
    pose proof (N_of_ascii_bound c) as Hc.
    destruct (Z.ltb_spec (Z.of_N (N_of_ascii c)) 128); lia.
Qed.

Lemma towstring_L (str : string) :
  seven_bit str = true -> towstring str = L str.
Proof.
  unfold seven_bit, towstring, L. intros Hs.
  rewrite forallb_forall in Hs. apply map_ext_in. intros c Hc.
  rewrite wchar_t_of_char_cases. now rewrite (Hs c Hc).
Qed.

(** X2. On text whose [char]s are all below 0x80, [towstring] gives the
    wide literal of the same text; as soon as one [char] is not, it gives
    something else. *)
Theorem towstring_seven_bit (str : string) :
  towstring str = L str <-> seven_bit str = true.
Proof.
  split; [|apply towstring_L].
  unfold seven_bit, towstring, L. intros Heq.
  apply forallb_forall. intros c Hc.
  assert (Hc' : wchar_t_of_char c = Z.of_N (N_of_ascii c)).
  { revert Heq Hc. induction (list_ascii_of_string str) as [|a l IH];
      simpl; [tauto|].
    intros Heq [<-|Hin]; injection Heq as Ha Hl; auto. }
  rewrite wchar_t_of_char_cases in Hc'.
  destruct (Z.of_N (N_of_ascii c) <? 128); [reflexivity | lia].
Qed.

(** X3. The low byte of each wide character of [towstring str] is the
    [char] it came from, so different strings widen to different wide
    strings. *)
Theorem towstring_keeps_low_bytes (str : string) :
  Example.narrow (towstring str) = str /\
  (forall str', towstring str = towstring str' -> str = str').
Proof.
  assert (Hn : forall s, Example.narrow (towstring s) = s).
  { intros s. unfold Example.narrow, towstring. rewrite map_map.
    induction s as [|c s IH]; simpl; [reflexivity|].
    now rewrite wchar_t_of_char_low_byte, IH. }
  split; [apply Hn|].
  intros str' Heq. rewrite <- (Hn str), <- (Hn str'). now rewrite Heq.
Qed.

(** ** Navigation *)

Lemma wchar_t_of_char_nul (c : ascii) :
  (wchar_t_of_char c =? 0) = Ascii.eqb c Ascii.zero.
Proof. destruct c as [[] [] [] [] [] [] [] []]; reflexivity. Qed.

Lemma c_str_towstring (str : string) :
  c_str (towstring str) = towstring (until_nul str).
Proof.
  unfold towstring. induction str as [|c str IH]; [reflexivity|].
  cbn [list_ascii_of_string map c_str until_nul].
  rewrite wchar_t_of_char_nul. destruct (Ascii.eqb c Ascii.zero).
  - reflexivity.
  - cbn [list_ascii_of_string map]. now rewrite IH.
Qed.

Lemma seven_bit_until_nul (str : string) :
  seven_bit str = true -> seven_bit (until_nul str) = true.
Proof.
  unfold seven_bit. induction str as [|c str IH]; [reflexivity|].
  cbn [list_ascii_of_string forallb until_nul]. intros Hs.
  apply andb_true_iff in Hs. destruct Hs as [Hc Hs].
  destruct (Ascii.eqb c Ascii.zero); [reflexivity|].
  cbn [list_ascii_of_string forallb]. now rewrite Hc, IH.
Qed.

(** X4. For every text, [LoadUrl], [LoadStringContent] and [Reload] each
    make exactly one call to the control and drop its answer; the object,
    the host and the error stream are not touched.  The control receives
    the widened text up to its first NUL: the widening of the text before
    its first NUL [char], which is the wide literal of that part when the
    [char]s of the text are all below 0x80. *)
Theorem navigation_forwards (text : string) (b : Browser Host) :
  LoadUrl text b =
    Some (tt, {| world := world b; navigator := navigator b;
                 navigation := navigation b ++
                   [Navigation.Navigate (c_str (towstring text))] |}) /\
  LoadStringContent text b =
    Some (tt, {| world := world b; navigator := navigator b;
                 navigation := navigation b ++
                   [Navigation.NavigateToString
                      (c_str (towstring text))] |}) /\
  Reload b =
    Some (tt, {| world := world b; navigator := navigator b;
                 navigation := navigation b ++ [Navigation.Reload] |}) /\
  c_str (towstring text) = towstring (until_nul text) /\
  (seven_bit text = true -> c_str (towstring text) = L (until_nul text)).
Proof.
  split; [reflexivity|]. split; [reflexivity|]. split; [reflexivity|].
  split; [apply c_str_towstring|].
  intros Hs. rewrite c_str_towstring.
  apply towstring_L. now apply seven_bit_until_nul.
Qed.

(** ** Handlers that read from the control *)

(** X5. With the URL callback [f] set, the handler of SourceChanged reads
    the source once; it calls [f] with the source converted by CW2A when
    the read answers S_OK, and does not call it otherwise.  It answers
    S_OK in both cases: a failed read is not reported. *)
Theorem SourceChanged_reports_source (w : World Host)
    (f : string -> Host -> Host) :
  url_changed_callback_ (this w) = Some f ->
  let r := get_Source_result (webview_ (this w)) in
  RegisterEventHandlers CW2A SourceChanged w =
    Some (S_OK, {| this := this w; native := native w ++ [get_Source];
                   cerr := cerr w;
                   host := if fst r =? S_OK then f (CW2A (snd r)) (host w)
                           else host w |}).
Proof.
  intros Hf r. subst r. destruct w as [t calls err h].
  cbn [this native cerr host] in *. run_handler. rewrite Hf. run_handler.
  destruct (fst (get_Source_result (webview_ t)) =? S_OK); reflexivity.
Qed.

(** X6. With the title callback [f] set, the handler of
    DocumentTitleChanged reads the title once; it calls [f] with the title
    converted by CW2A when the read answers S_OK, and does not call it
    otherwise.  It answers S_OK in both cases. *)
Theorem DocumentTitleChanged_reports_title (w : World Host)
    (f : string -> Host -> Host) :
  document_title_changed_callback_ (this w) = Some f ->
  let r := get_DocumentTitle_result (webview_ (this w)) in
  RegisterEventHandlers CW2A DocumentTitleChanged w =
    Some (S_OK, {| this := this w; native := native w ++ [get_DocumentTitle];
                   cerr := cerr w;
                   host := if fst r =? S_OK then f (CW2A (snd r)) (host w)
                           else host w |}).
Proof.
  intros Hf r. subst r. destruct w as [t calls err h].
  cbn [this native cerr host] in *. run_handler. rewrite Hf. run_handler.
  destruct (fst (get_DocumentTitle_result (webview_ t)) =? S_OK);
    reflexivity.
Qed.

(** X7. With the cursor callback [f] set, the handler of CursorChanged
    reads the cursor of the sending controller once; it calls [f] with
    that cursor when the read answers S_OK, and does not call it
    otherwise.  It answers S_OK in both cases. *)
Theorem CursorChanged_reports_cursor (w : World Host)
    (f : HCURSOR -> Host -> Host) :
  cursor_changed_callback_ (this w) = Some f ->
  let r := get_Cursor_result (composition_controller_ (this w)) in
  RegisterEventHandlers CW2A CursorChanged w =
    Some (S_OK, {| this := this w; native := native w ++ [get_Cursor];
                   cerr := cerr w;
                   host := if fst r =? S_OK then f (snd r) (host w)
                           else host w |}).
Proof.
  intros Hf r. subst r. destruct w as [t calls err h].
  cbn [this native cerr host] in *. run_handler. rewrite Hf. run_handler.
  destruct (fst (get_Cursor_result (composition_controller_ t)) =? S_OK);
    reflexivity.
Qed.

(** ** What a sequence of calls changes *)

Lemma SetPointerButtonState_keys (button : WebviewPointerButton.t)
    (is_down : bool) (w : World Host) :
  SetPointerButtonState button is_down w =
  Some (tt, {| this := with_virtual_keys
                 (keys_after button is_down (virtual_keys_ (this w)))
                 (this w);
               native := native w ++
                 [SendMouseInput (button_kind button is_down)
                    (VirtualKeyState.state
                       (keys_after button is_down (virtual_keys_ (this w))))
                    0 (last_cursor_pos_ (this w))];
               cerr := cerr w; host := host w |}).
Proof. destruct w as [t calls err h], t, button, is_down; reflexivity. Qed.

Lemma keys_after_key_down (button : WebviewPointerButton.t) (is_down : bool)
    (v : VirtualKeyState.t) (n : Z) :
  key_down (keys_after button is_down v) n =
  match button with
  | WebviewPointerButton.None => key_down v n
  | _ => if n =? Z.log2 (button_flag button) then is_down else key_down v n
  end.
Proof.
  destruct button; cbn [keys_after button_flag]; [reflexivity| | |].
  - apply (set_key_down 0); lia.
  - apply (set_key_down 1); lia.
  - apply (set_key_down 4); lia.
Qed.

Lemma keys_after_calls_cons (c : Call) (cs : list Call)
    (v : VirtualKeyState.t) :
  keys_after_calls (c :: cs) v = keys_after_calls cs (keys_after_calls [c] v).
Proof. destruct c; reflexivity. Qed.

Lemma handler_skips (e : NativeEvent) (w : World Host) :
  reports_to e (this w) = false ->
  RegisterEventHandlers CW2A e w = Some (S_OK, w).
Proof.
  destruct w as [t calls err h]. cbn [this].
  destruct e; unfold reports_to; intros Hno; run_handler;
    destruct (has_target _); try discriminate; reflexivity.
Qed.

Ltac settle_effect :=
  do 2 eexists; (split; [reflexivity|]);
  cbn [sent this native cerr host andb negb];
  rewrite <- ?app_assoc;
  repeat split;
  first [ reflexivity | symmetry; apply app_nil_r | discriminate ].

Lemma handler_effect (e : NativeEvent) (w : World Host) :
  exists w' calls,
    RegisterEventHandlers CW2A e w = Some (S_OK, w') /\
    this w' = this w /\ cerr w' = cerr w /\
    native w' = native w ++ calls.
Proof.
  destruct w as [t calls err h].
  destruct e; run_handler;
    match goal with |- context [has_target ?c] => destruct c end;
    run_handler;
    try match goal with
        | |- context [?a =? S_OK] => destruct (a =? S_OK)
        end;
    run_handler; settle_effect.
Qed.

(** One call: it completes, changes at most the virtual keys and the
    recorded position of the object, appends to the native log, writes the
    failure line exactly when [logs_failure] says so, and leaves the host
    alone unless it finds a callback. *)
Lemma perform_effect (c : Call) (w : World Host) :
  exists w' calls,
    perform unrepresentable_LONG unrepresentable_short CW2A c w =
      Some (tt, w') /\
    this w' =
      with_last_cursor_pos
        (recorded_position unrepresentable_LONG [c]
           (last_cursor_pos_ (this w)))
        (with_virtual_keys (keys_after_calls [c] (virtual_keys_ (this w)))
           (this w)) /\
    native w' = native w ++ calls /\
    cerr w' =
      cerr w ++ (if logs_failure (this w) c then [failure_line] else []) /\
    (reaches_host (this w) c = false -> host w' = host w).
Proof.
  destruct c; cbn [perform recorded_position keys_after_calls logs_failure
                   reaches_host].
  - destruct w as [t calls err h], t.
    cbv [SetSurfaceSize bind get_this when Visual_put_Size
         ICoreWebView2Controller_put_Bounds call_native write_cerr invoke
         ret].
    cbn [this native cerr host surface_ webview_controller_
         surface_size_changed_callback_ virtual_keys_ last_cursor_pos_].
    destruct surface_0; cbn [andb]; [|settle_effect].
    match goal with |- context [?hr =? S_OK] => destruct (hr =? S_OK) end;
      cbn [negb this native cerr host];
      destruct surface_size_changed_callback_0;
      cbn [has_target this native cerr host]; settle_effect.
  - destruct w as [t calls err h], t. settle_effect.
  - destruct w as [t calls err h], t.
    unfold SetUserAgent, bind, get_this. cbn [this settings2_].
    destruct settings2_0; settle_effect.
  - destruct w as [t calls err h], t. settle_effect.
  - rewrite SetPointerButtonState_keys. destruct w as [t calls err h], t.
    settle_effect.
  - rewrite SendScroll_run. destruct w as [t calls err h], t. settle_effect.
  - rewrite SetScrollDelta_run. destruct w as [t calls err h], t.
    settle_effect.
  - unfold bind.
    destruct (handler_effect e w) as [w' [calls [Hrun [Ht [He Hn]]]]].
    rewrite Hrun. exists w', calls. split; [reflexivity|].
    rewrite Ht, He, Hn, app_nil_r. destruct w as [t calls0 err h], t.
    repeat split. intros Hno.
    pose proof (handler_skips e _ Hno) as Hskip.
    rewrite Hskip in Hrun. now inversion Hrun.
Qed.

Lemma logs_failure_frame (p : POINT) (v : VirtualKeyState.t)
    (t : Webview Host) (c : Call) :
  logs_failure (with_last_cursor_pos p (with_virtual_keys v t)) c =
  logs_failure t c.
Proof. destruct c; reflexivity. Qed.

Lemma reaches_host_frame (p : POINT) (v : VirtualKeyState.t)
    (t : Webview Host) (c : Call) :
  reaches_host (with_last_cursor_pos p (with_virtual_keys v t)) c =
  reaches_host t c.
Proof. destruct c; reflexivity. Qed.

Lemma forallb_pointwise {A : Type} (f g : A -> bool) (l : list A) :
  (forall a, f a = g a) -> forallb f l = forallb g l.
Proof.
  intros Hfg. induction l as [|a l IH]; simpl; [reflexivity|].
  now rewrite Hfg, IH.
Qed.

Lemma perform_all_effect (cs : list Call) (w0 : World Host) :
  exists w calls,
    perform_all unrepresentable_LONG unrepresentable_short CW2A cs w0 =
      Some (tt, w) /\
    this w =
      with_last_cursor_pos
        (recorded_position unrepresentable_LONG cs
           (last_cursor_pos_ (this w0)))
        (with_virtual_keys (keys_after_calls cs (virtual_keys_ (this w0)))
           (this w0)) /\
    native w = native w0 ++ calls /\
    cerr w =
      cerr w0 ++
      repeat failure_line (List.length (filter (logs_failure (this w0)) cs)) /\
    (forallb (fun c => negb (reaches_host (this w0) c)) cs = true ->
     host w = host w0).
Proof.
  revert w0. induction cs as [|c cs IH]; intros w0.
  - exists w0, []. cbn [perform_all recorded_position keys_after_calls
                        filter length repeat forallb].
    rewrite !app_nil_r. destruct w0 as [t ? ? ?], t. repeat split.
  - destruct (perform_effect c w0) as [w1 [l1 [Hrun [Ht [Hn [He Hh]]]]]].
    destruct (IH w1) as [w [l [Hall [Htw [Hnw [Hew Hhw]]]]]].
    exists w, (l1 ++ l). split; [|split; [|split; [|split]]].
    + cbn [perform_all]. unfold bind. now rewrite Hrun.
    + rewrite recorded_position_cons, keys_after_calls_cons.
      rewrite Htw, Ht. reflexivity.
    + now rewrite Hnw, Hn, app_assoc.
    + rewrite Hew, He, <- app_assoc. f_equal.
      rewrite Ht.
      rewrite (filter_ext _ (logs_failure (this w0)))
        by (intros a; apply logs_failure_frame).
      cbn [filter]. destruct (logs_failure (this w0) c); reflexivity.
    + cbn [forallb]. intros Hall'. apply andb_true_iff in Hall'.
      destruct Hall' as [Hc Hcs]. apply negb_true_iff in Hc.
      rewrite Hhw, (Hh Hc); [reflexivity|].
      rewrite <- Hcs. apply forallb_pointwise. intros a. rewrite Ht.
      now rewrite reaches_host_frame.
Qed.





(** X11. The host changes through callbacks only: a sequence of calls and
    events in which no [SetSurfaceSize] finds both a surface and a
    surface-size callback and no event finds the callback it reports to
    leaves the host as it was, whatever the pointer, scroll, cookie and
    user-agent calls in it. *)
Theorem host_changes_through_callbacks_only (cs : list Call)
    (w0 : World Host) :
  forallb (fun c => negb (reaches_host (this w0) c)) cs = true ->
  exists w,
    perform_all unrepresentable_LONG unrepresentable_short CW2A cs w0 =
      Some (tt, w) /\
    host w = host w0.
Proof.
  intros Hno.
  destruct (perform_all_effect cs w0) as [w [l [Hrun [_ [_ [_ Hh]]]]]].
  exists w. split; [exact Hrun | exact (Hh Hno)].
Qed.

(** ** Buttons, composed *)

Lemma VirtualKeyState_ext (a b : VirtualKeyState.t) :
  (forall n, key_down a n = key_down b n) -> a = b.
Proof.
  destruct a as [a], b as [b]. unfold key_down, VirtualKeyState.state.
  cbn [VirtualKeyState.state_]. intros Hbits. f_equal.
  apply Z.bits_inj'. intros n _. apply Hbits.
Qed.

Lemma with_virtual_keys_same (t : Webview Host) :
  with_virtual_keys (virtual_keys_ t) t = t.
Proof. now destruct t. Qed.

(** X12. After [SetPointerButtonState button is_down] for one of the three
    buttons, the inputs that follow carry the button: the mouse-move input
    of [SetCursorPos] and the wheel input of [SendScroll] are sent with
    virtual keys whose flag for the button is [is_down]. *)
Theorem held_button_is_reported (button : WebviewPointerButton.t)
    (is_down : bool) (x y delta : double) (horizontal : bool)
    (w : World Host) :
  In button [WebviewPointerButton.Primary; WebviewPointerButton.Secondary;
             WebviewPointerButton.Tertiary] ->
  exists w1 vk,
    SetPointerButtonState button is_down w = Some (tt, w1) /\
    Z.testbit vk (Z.log2 (button_flag button)) = is_down /\
    SetCursorPos unrepresentable_LONG x y w1 =
      Some (tt, {| this :=
                     with_last_cursor_pos
                       {| POINT.x := static_cast_LONG unrepresentable_LONG x;
                          POINT.y := static_cast_LONG unrepresentable_LONG y |}
                       (this w1);
                   native := native w1 ++
                     [SendMouseInput COREWEBVIEW2_MOUSE_EVENT_KIND_MOVE vk 0
                        {| POINT.x := static_cast_LONG unrepresentable_LONG x;
                           POINT.y := static_cast_LONG unrepresentable_LONG y
                        |}];
                   cerr := cerr w1; host := host w1 |}) /\
    SendScroll unrepresentable_short delta horizontal w1 =
      Some (tt, {| this := this w1;
                   native := native w1 ++
                     [SendMouseInput
                        COREWEBVIEW2_MOUSE_EVENT_KIND_X_BUTTON_DOWN
                        COREWEBVIEW2_MOUSE_EVENT_VIRTUAL_KEYS_NONE 0
                        (last_cursor_pos_ (this w));
                      SendMouseInput
                        (if horizontal
                         then COREWEBVIEW2_MOUSE_EVENT_KIND_HORIZONTAL_WHEEL
                         else COREWEBVIEW2_MOUSE_EVENT_KIND_WHEEL)
                        vk
                        (UINT32_of_short
                           (static_cast_short unrepresentable_short
                              (Double.mul delta (Double.of_int 6))))
                        (last_cursor_pos_ (this w));
                      SendMouseInput
                        COREWEBVIEW2_MOUSE_EVENT_KIND_X_BUTTON_UP
                        COREWEBVIEW2_MOUSE_EVENT_VIRTUAL_KEYS_NONE 0
                        (last_cursor_pos_ (this w))];
                   cerr := cerr w1; host := host w1 |}).
Proof.
  intros Hin. rewrite SetPointerButtonState_keys.
  eexists. exists (VirtualKeyState.state
                     (keys_after button is_down (virtual_keys_ (this w)))).
  split; [reflexivity|]. split; [|split].
  - change (key_down (keys_after button is_down (virtual_keys_ (this w)))
              (Z.log2 (button_flag button)) = is_down).
    rewrite keys_after_key_down, Z.eqb_refl.
    destruct Hin as [<-|[<-|[<-|[]]]]; reflexivity.
  - reflexivity.
  - rewrite SendScroll_run. reflexivity.
Qed.

(** X13. Changing one of the three buttons and changing it back restores
    the object: when the flag of the button is [held], the calls
    [SetPointerButtonState button (negb held)] and then
    [SetPointerButtonState button held] leave every field as it was, after
    sending one input each at the same position. *)
Theorem button_change_is_undone (button : WebviewPointerButton.t)
    (held : bool) (w : World Host) :
  In button [WebviewPointerButton.Primary; WebviewPointerButton.Secondary;
             WebviewPointerButton.Tertiary] ->
  key_down (virtual_keys_ (this w)) (Z.log2 (button_flag button)) = held ->
  exists w1 k1 k2 vk,
    SetPointerButtonState button (negb held) w = Some (tt, w1) /\
    SetPointerButtonState button held w1 =
      Some (tt, {| this := this w;
                   native := native w ++
                     [SendMouseInput k1 vk 0 (last_cursor_pos_ (this w));
                      SendMouseInput k2
                        (VirtualKeyState.state (virtual_keys_ (this w))) 0
                        (last_cursor_pos_ (this w))];
                   cerr := cerr w; host := host w |}).
Proof.
  intros Hin Hheld.
  assert (Hback :
    keys_after button held
      (keys_after button (negb held) (virtual_keys_ (this w))) =
    virtual_keys_ (this w)).
  { apply VirtualKeyState_ext. intros n. rewrite !keys_after_key_down.
    destruct Hin as [<-|[<-|[<-|[]]]];
      match goal with
      | |- context [n =? ?k] =>
          destruct (Z.eqb_spec n k); [subst n; now rewrite Hheld|]
      end; reflexivity. }
  rewrite SetPointerButtonState_keys.
  eexists. exists (button_kind button (negb held)), (button_kind button held).
  exists (VirtualKeyState.state
            (keys_after button (negb held) (virtual_keys_ (this w)))).
  split; [reflexivity|].
  rewrite SetPointerButtonState_keys.
  destruct w as [t calls err h], t.
  cbn [this native cerr host virtual_keys_ with_virtual_keys
       last_cursor_pos_] in *.
  rewrite Hback, <- app_assoc. reflexivity.
Qed.

(** X14. Repeating [SetPointerButtonState] with the same button and the
    same [is_down] sends a second input of the same kind with the same
    virtual keys and leaves the object as the first call left it. *)
Theorem button_repeat_keeps_keys (button : WebviewPointerButton.t)
    (is_down : bool) (w : World Host) :
  exists w1 kind vk,
    SetPointerButtonState button is_down w = Some (tt, w1) /\
    native w1 =
      native w ++ [SendMouseInput kind vk 0 (last_cursor_pos_ (this w))] /\
    SetPointerButtonState button is_down w1 =
      Some (tt, {| this := this w1;
                   native := native w1 ++
                     [SendMouseInput kind vk 0 (last_cursor_pos_ (this w))];
                   cerr := cerr w1; host := host w1 |}).
Proof.
  assert (Hsame :
    keys_after button is_down
      (keys_after button is_down (virtual_keys_ (this w))) =
    keys_after button is_down (virtual_keys_ (this w))).
  { apply VirtualKeyState_ext. intros n. rewrite !keys_after_key_down.
    destruct button; try reflexivity;
      match goal with
      | |- context [n =? ?k] => destruct (n =? k)
      end; reflexivity. }
  rewrite SetPointerButtonState_keys.
  eexists. exists (button_kind button is_down).
  exists (VirtualKeyState.state
            (keys_after button is_down (virtual_keys_ (this w)))).
  split; [reflexivity|]. split; [reflexivity|].
  rewrite SetPointerButtonState_keys.
  destruct w as [t calls err h], t.
  cbn [this native cerr host virtual_keys_ with_virtual_keys
       last_cursor_pos_] in *.
  rewrite Hsame. reflexivity.
Qed.

(** ** Wheel offsets *)

Lemma scroll_calls_wheel (t : Webview Host) (delta : double)
    (horizontal : bool) :
  scroll_calls unrepresentable_short t delta horizontal =
  wheel_calls t horizontal
    (static_cast_short unrepresentable_short
       (Double.mul delta (Double.of_int kScrollMultiplier))).
Proof. reflexivity. Qed.

Lemma binary_round_aux_negb (prec emax : Z) (s : bool) (m e : Z)
    (l : location) :
  binary_round_aux prec emax (negb s) m e l =
  SFopp (binary_round_aux prec emax s m e l).
Proof.
  unfold binary_round_aux.
  destruct (shr_fexp prec emax m e l) as [mrs e'].
  destruct (shr_fexp prec emax _ e' loc_Exact) as [mrs' e''].
  destruct (shr_m mrs'); [reflexivity | | reflexivity].
  destruct (e'' <=? emax - prec); reflexivity.
Qed.

Lemma mul_opp (a b : double) :
  Double.mul (SFopp a) b = SFopp (Double.mul a b).
Proof.
  unfold Double.mul.
  destruct a as [sa|sa| |sa ma ea], b as [sb|sb| |sb mb eb];
    cbn [SFopp SFmul]; try reflexivity;
    try (now destruct sa, sb).
  rewrite <- binary_round_aux_negb. now destruct sa, sb.
Qed.

Lemma truncate_opp (d : double) :
  Double.truncate (SFopp d) = option_map Z.opp (Double.truncate d).
Proof.
  destruct d as [s|s| |s m e]; cbn [SFopp Double.truncate option_map];
    try reflexivity.
  f_equal. destruct s; cbn [negb cond_Zopp]; lia.
Qed.

(** X15. Scrolling by [delta] and by [-delta] gives opposite wheel
    offsets: when the integral part [z] of [delta * 6] is within -32767
    and 32767, [SendScroll delta] sends the wheel event with offset [z]
    and [SendScroll (-delta)] sends it with offset [-z]. *)
Theorem SendScroll_opposite (delta : double) (horizontal : bool) (z : Z)
    (w : World Host) :
  Double.truncate (Double.mul delta (Double.of_int 6)) = Some z ->
  - 32767 <= z <= 32767 ->
  SendScroll unrepresentable_short delta horizontal w =
    Some (tt, {| this := this w;
                 native := native w ++ wheel_calls (this w) horizontal z;
                 cerr := cerr w; host := host w |}) /\
  SendScroll unrepresentable_short (SFopp delta) horizontal w =
    Some (tt, {| this := this w;
                 native := native w ++ wheel_calls (this w) horizontal (- z);
                 cerr := cerr w; host := host w |}).
Proof.
  intros Ht Hz. rewrite !SendScroll_run, !scroll_calls_wheel. unfold sent.
  change kScrollMultiplier with 6.
  rewrite (static_cast_short_exact _ z Ht) by lia.
  rewrite (static_cast_short_exact _ (- z)); [split; reflexivity | | lia].
  now rewrite mul_opp, truncate_opp, Ht.
Qed.

Lemma scales_by_six_in_range (n : Z) :
  - 5461 <= n <= 5461 -> scales_by_six n = true.
Proof.
  intros Hn.
  assert (Hall : forallb scales_by_six
                   (map (fun i => Z.of_nat i - 5461)
                      (seq 0 (Z.to_nat 10923))) = true)
    by (vm_compute; reflexivity).
  rewrite forallb_forall in Hall. apply Hall.
  apply in_map_iff. exists (Z.to_nat (n + 5461)). split; [lia|].
  apply in_seq. lia.
Qed.

(** X16. An integral delta is scaled by six exactly: for every integer [n]
    from -5461 to 5461, [SendScroll] of the double [n] sends the wheel
    event with offset [6 * n].  A delta of 20 thus gives one WHEEL_DELTA
    (120). *)
Theorem SendScroll_integral_delta (n : Z) (horizontal : bool)
    (w : World Host) :
  - 5461 <= n <= 5461 ->
  SendScroll unrepresentable_short (Double.of_int n) horizontal w =
    Some (tt, {| this := this w;
                 native := native w ++
                   wheel_calls (this w) horizontal (6 * n);
                 cerr := cerr w; host := host w |}).
Proof.
  intros Hn. rewrite SendScroll_run, scroll_calls_wheel. unfold sent.
  pose proof (scales_by_six_in_range n Hn) as Hs. unfold scales_by_six in Hs.
  destruct (Double.truncate _) as [z|] eqn:Ht; [|discriminate].
  apply Z.eqb_eq in Hs. subst z.
  rewrite (static_cast_short_exact _ (6 * n) Ht) by lia. reflexivity.
Qed.

(** X17. [SetScrollDelta] does not filter values that are not numbers: a
    NaN or an infinite [delta_x] compares unequal to 0.0 and is forwarded.
    Its product with six is the value itself, which has no integral part,
    so the wheel offset is the low 16 bits of whatever the conversion of
    the platform gives for it. *)
Theorem SetScrollDelta_forwards_non_finite (delta_x : double)
    (w : World Host) :
  delta_x = S754_nan \/ (exists s, delta_x = S754_infinity s) ->
  SetScrollDelta unrepresentable_short delta_x Double.zero w =
    Some (tt, {| this := this w;
                 native := native w ++
                   wheel_calls (this w) true
                     (Int.wrap_signed 16 (unrepresentable_short delta_x));
                 cerr := cerr w; host := host w |}).
Proof.
  intros Hd. rewrite SetScrollDelta_run. unfold sent.
  assert (Hneq : Double.neq delta_x Double.zero = true)
    by (destruct Hd as [->|[[] ->]]; reflexivity).
  assert (Hmul : Double.mul delta_x (Double.of_int kScrollMultiplier) =
                 delta_x)
    by (destruct Hd as [->|[[] ->]]; reflexivity).
  rewrite Hneq. change (Double.neq Double.zero Double.zero) with false.
  rewrite app_nil_r, scroll_calls_wheel, Hmul.
  unfold static_cast_short.
  destruct Hd as [->|[s ->]]; reflexivity.
Qed.

(** ** Sub-pixel positions *)

(** X18. [SetCursorPos] rounds toward zero, not down: every position whose
    two coordinates lie strictly between -1 and 1, zeros of either sign
    and negative fractions included, is recorded and sent as the point
    (0, 0). *)
Theorem SetCursorPos_sub_pixel (x y : double) (w : World Host) :
  strictly_inside_unit x = true -> strictly_inside_unit y = true ->
  SetCursorPos unrepresentable_LONG x y w =
    Some (tt, {| this := with_last_cursor_pos
                           {| POINT.x := 0; POINT.y := 0 |} (this w);
                 native := native w ++
                   [SendMouseInput COREWEBVIEW2_MOUSE_EVENT_KIND_MOVE
                      (VirtualKeyState.state (virtual_keys_ (this w))) 0
                      {| POINT.x := 0; POINT.y := 0 |}];
                 cerr := cerr w; host := host w |}).
Proof.
  intros Hx Hy.
  assert (Hzero : forall d, strictly_inside_unit d = true ->
            static_cast_LONG unrepresentable_LONG d = 0).
  { intros d Hd. apply static_cast_LONG_exact; [|lia].
    destruct d as [s|s| |s m e]; try discriminate; [reflexivity|].
    cbn [strictly_inside_unit] in Hd. apply andb_true_iff in Hd.
    destruct Hd as [He Hm]. apply Z.ltb_lt in He, Hm.
    cbn [Double.truncate]. destruct (Z.leb_spec 0 e); [lia|].
    rewrite Z.div_small by lia. now destruct s. }
  unfold SetCursorPos. rewrite (Hzero x Hx), (Hzero y Hy). reflexivity.
Qed.

(** ** Sizes *)

Lemma LONG_of_size_t_cases (n : size_t) :
  0 <= n < 2 ^ 32 ->
  LONG_of_size_t n = if n <? 2 ^ 31 then n else n - 2 ^ 32.
Proof.
  intros Hn. unfold LONG_of_size_t, Int.wrap_signed.
  change (2 ^ (32 - 1)) with 2147483648.
  change (2 ^ 32) with 4294967296 in *. change (2 ^ 31) with 2147483648.
  destruct (Z.ltb_spec n 2147483648).
  - rewrite Z.mod_small by lia. lia.
  - replace (n + 2147483648) with (n - 2147483648 + 1 * 4294967296) by lia.
    rewrite Z.mod_add by lia. rewrite Z.mod_small by lia. lia.
Qed.

(** X19. With a surface, [SetSurfaceSize] passes the size to the control
    as a rectangle of 32-bit signed integers anchored at the origin: a
    width or height below 2^31 arrives as it is, and one from 2^31 up to
    2^32 arrives lowered by 2^32, so negative.  The callback, when set,
    still receives the width and the height as given. *)
Theorem SetSurfaceSize_bounds (width height : size_t) (w : World Host) :
  surface_ (this w) = true ->
  0 <= width < 2 ^ 32 -> 0 <= height < 2 ^ 32 ->
  exists w',
    SetSurfaceSize width height w = Some (tt, w') /\
    native w' =
      native w ++
      [Visual_Size (float_of_size_t width) (float_of_size_t height);
       put_Bounds
         {| RECT.left := 0; RECT.top := 0;
            RECT.right := if width <? 2 ^ 31 then width else width - 2 ^ 32;
            RECT.bottom :=
              if height <? 2 ^ 31 then height else height - 2 ^ 32 |}] /\
    host w' =
      match surface_size_changed_callback_ (this w) with
      | Some f => f (width, height) (host w)
      | None => host w
      end.
Proof.
  intros Hs Hw Hh. destruct w as [t calls err h]. cbn [this] in *.
  cbv [SetSurfaceSize bind get_this when Visual_put_Size
       ICoreWebView2Controller_put_Bounds call_native write_cerr invoke ret].
  cbn [this native cerr host]. rewrite Hs.
  rewrite <- (LONG_of_size_t_cases width Hw).
  rewrite <- (LONG_of_size_t_cases height Hh).
  match goal with |- context [?hr =? S_OK] => destruct (hr =? S_OK) end;
    cbn [negb this native cerr host];
    destruct (surface_size_changed_callback_ t);
    cbn [has_target this native cerr host];
    eexists; rewrite <- ?app_assoc; repeat split.
Qed.

End Properties.

(** * The properties at concrete worlds *)

Module Witness.
Import Example.

(** C1 on 2.5, horizontally: the wheel event carries 15. *)
Lemma SendScroll_toggles_x_button_witness :
  SendScroll x64_short two_and_a_half true
    (world_of (listening accepting_bounds)) =
  Some (tt, {| this := listening accepting_bounds;
               native :=
                 [SendMouseInput 0x020B 0 0 {| POINT.x := 3; POINT.y := 4 |};
                  SendMouseInput 0x020E 2 15 {| POINT.x := 3; POINT.y := 4 |};
                  SendMouseInput 0x020C 0 0 {| POINT.x := 3; POINT.y := 4 |}];
               cerr := []; host := [] |}).
Proof.
  exact (proj1 (SendScroll_toggles_x_button x64_short two_and_a_half true
                  (world_of (listening accepting_bounds)))).
Defined.

(** C2: the bounds are refused, the line is written and the callback is
    called all the same. *)
Lemma SetSurfaceSize_absorbs_failure :
  put_Bounds_result rejecting_bounds
    {| RECT.left := 0; RECT.top := 0;
       RECT.right := 800; RECT.bottom := 600 |} <> S_OK /\
  SetSurfaceSize 800 600 (world_of (listening rejecting_bounds)) =
    Some (tt, {| this := listening rejecting_bounds;
                 native :=
                   [Visual_Size (float_of_size_t 800) (float_of_size_t 600);
                    put_Bounds {| RECT.left := 0; RECT.top := 0;
                                  RECT.right := 800; RECT.bottom := 600 |}];
                 cerr := ["Setting webview bounds failed."%string];
                 host := [SurfaceSizeChanged (800, 600)] |}) /\
  [SurfaceSizeChanged (800, 600)] <>
    host (world_of (listening rejecting_bounds)).
Proof.
  split; [discriminate|]. split; [reflexivity | discriminate].
Qed.

Lemma SetSurfaceSize_logs_and_continues_witness :
  SetSurfaceSize 800 600 (world_of (listening rejecting_bounds)) =
  Some (tt, {| this := listening rejecting_bounds;
               native :=
                 [Visual_Size (float_of_size_t 800) (float_of_size_t 600);
                  put_Bounds {| RECT.left := 0; RECT.top := 0;
                                RECT.right := 800; RECT.bottom := 600 |}];
               cerr := ["Setting webview bounds failed."%string];
               host := [SurfaceSizeChanged (800, 600)] |}).
Proof.
  exact (proj1 (SetSurfaceSize_logs_and_continues 800 600 "agent"
                  (world_of (listening rejecting_bounds)))).
Defined.

(** C3: with the extended settings the user agent is passed on, up to its
    first NUL, and the answer is true; without them nothing is called and
    the answer is false. *)
Lemma native_result_as_bool_witness :
  ClearCookies (world_of (listening accepting_bounds)) =
    Some (true,
          {| this := listening accepting_bounds;
             native := [CallDevToolsProtocolMethod
                          (L "Network.clearBrowserCookies") (L "{}")];
             cerr := []; host := [] |}) /\
  SetUserAgent a_nul_b (world_of (listening accepting_bounds)) =
    Some (true,
          {| this := listening accepting_bounds;
             native := [put_UserAgent [97]];
             cerr := []; host := [] |}) /\
  SetUserAgent "agent" (world_of silent) = Some (false, world_of silent).
Proof.
  destruct (native_result_as_bool a_nul_b
              (world_of (listening accepting_bounds)))
    as [[b [Hc Hb]] [b' [Hu Hb']]].
  destruct (native_result_as_bool "agent" (world_of silent))
    as [_ [b'' [Hs Hb'']]].
  assert (Et : b = true) by (apply Hb; reflexivity).
  assert (Et' : b' = true)
    by (apply Hb'; exists settings; split; reflexivity).
  subst b b'. split; [exact Hc|]. split; [exact Hu|].
  destruct b''; [|exact Hs].
  destruct (proj1 Hb'' eq_refl) as [s2 [Hnone _]]. discriminate Hnone.
Defined.

(** C4: pressing the middle button with the right one held. *)
Lemma SetPointerButtonState_forwards_witness :
  In WebviewPointerButton.Tertiary
    [WebviewPointerButton.Primary; WebviewPointerButton.Secondary;
     WebviewPointerButton.Tertiary] /\
  SetPointerButtonState WebviewPointerButton.Tertiary true
    (world_of (listening accepting_bounds)) =
  Some (tt, {| this := with_virtual_keys {| VirtualKeyState.state_ := 18 |}
                         (listening accepting_bounds);
               native :=
                 [SendMouseInput 0x0207 18 0 {| POINT.x := 3; POINT.y := 4 |}];
               cerr := []; host := [] |}).
Proof.
  assert (Hin : In WebviewPointerButton.Tertiary
                  [WebviewPointerButton.Primary;
                   WebviewPointerButton.Secondary;
                   WebviewPointerButton.Tertiary])
    by (simpl; auto).
  split; [exact Hin|].
  exact (proj1 (SetPointerButtonState_forwards WebviewPointerButton.Tertiary
                  true (world_of (listening accepting_bounds)) Hin)).
Defined.

(** C5: a negative zero is no horizontal scroll. *)
Lemma SetScrollDelta_forwards_witness :
  SetScrollDelta x64_short (S754_zero true) minus_ten_point_75
    (world_of silent) =
  Some (tt, {| this := silent;
               native :=
                 [SendMouseInput 0x020B 0 0 {| POINT.x := 0; POINT.y := 0 |};
                  SendMouseInput 0x020A 0 4294967232
                    {| POINT.x := 0; POINT.y := 0 |};
                  SendMouseInput 0x020C 0 0 {| POINT.x := 0; POINT.y := 0 |}];
               cerr := []; host := [] |}).
Proof.
  exact (proj1 (SetScrollDelta_forwards x64_short (S754_zero true)
                  minus_ten_point_75 (world_of silent))).
Defined.

(** C6 on the recording host, each handler with its own callback alone. *)
Lemma handlers_translate_witness :
  RegisterEventHandlers narrow ContentLoading (world_of loading_only) =
  Some (S_OK, {| this := loading_only; native := []; cerr := [];
                 host := [LoadingStateChanged WebviewLoadingState.Loading] |})
  /\
  RegisterEventHandlers narrow LostFocus (world_of focus_only) =
  Some (S_OK, {| this := focus_only; native := []; cerr := [];
                 host := [FocusChanged false] |}).
Proof.
  split.
  - exact (proj1 (handlers_translate narrow (world_of loading_only))
             (fun a h => h ++ [LoadingStateChanged a]) eq_refl).
  - exact (proj2 (proj2 (proj2
             (handlers_translate narrow (world_of focus_only))))
             (fun a h => h ++ [FocusChanged a]) eq_refl).
Defined.

(** C7: (-10.75, 2.5) becomes (-10, 2). *)
Lemma SetCursorPos_truncates_witness :
  SetCursorPos x64_LONG minus_ten_point_75 two_and_a_half (world_of silent) =
  Some (tt, {| this := with_last_cursor_pos
                         {| POINT.x := -10; POINT.y := 2 |} silent;
               native :=
                 [SendMouseInput 0x0200 0 0 {| POINT.x := -10; POINT.y := 2 |}];
               cerr := []; host := [] |}).
Proof.
  exact (proj1 (SetCursorPos_truncates x64_LONG minus_ten_point_75
                  two_and_a_half (world_of silent))).
Defined.

(** C8: a source change with no URL callback leaves the world alone. *)
Lemma handlers_guard_callbacks_witness :
  reports_to SourceChanged (this (world_of silent)) = false /\
  RegisterEventHandlers narrow SourceChanged (world_of silent) =
  Some (S_OK, world_of silent).
Proof.
  split; [reflexivity|].
  exact (proj2 (handlers_guard_callbacks narrow SourceChanged
                  (world_of silent)) eq_refl).
Defined.

(** C9: two position updates among other calls; the button event that
    follows goes to the second position. *)
Lemma last_cursor_pos_anchors_input_witness :
  exists w w',
    perform_all x64_LONG x64_short narrow
      [CallSetCursorPos two_and_a_half two_and_a_half;
       CallSendScroll two_and_a_half false;
       CallSetCursorPos minus_ten_point_75 seven_thousand;
       Raise GotFocus;
       CallSetSurfaceSize 800 600]
      (world_of (listening accepting_bounds)) = Some (tt, w) /\
    last_cursor_pos_ (this w) = {| POINT.x := -10; POINT.y := 7000 |} /\
    perform x64_LONG x64_short narrow
      (CallSetPointerButtonState WebviewPointerButton.Primary true) w =
      Some (tt, w') /\
    last_cursor_pos_ (this w') = {| POINT.x := -10; POINT.y := 7000 |}.
Proof.
  destruct (last_cursor_pos_anchors_input x64_LONG x64_short narrow
              [CallSetCursorPos two_and_a_half two_and_a_half;
               CallSendScroll two_and_a_half false;
               CallSetCursorPos minus_ten_point_75 seven_thousand;
               Raise GotFocus;
               CallSetSurfaceSize 800 600]
              (world_of (listening accepting_bounds)))
    as [w [Hrun [Hpos Hsyn]]].
  destruct (Hsyn (CallSetPointerButtonState WebviewPointerButton.Primary true)
              eq_refl) as [w' [calls [Hstep [_ [_ Hkeep]]]]].
  exists w, w'. repeat split; assumption.
Defined.

(** C10: the button None. *)
Lemma SetPointerButtonState_default_witness :
  ~ In WebviewPointerButton.None
      [WebviewPointerButton.Primary; WebviewPointerButton.Secondary;
       WebviewPointerButton.Tertiary] /\
  SetPointerButtonState WebviewPointerButton.None true
    (world_of (listening accepting_bounds)) =
  Some (tt, {| this := listening accepting_bounds;
               native :=
                 [SendMouseInput 0 2 0 {| POINT.x := 3; POINT.y := 4 |}];
               cerr := []; host := [] |}).
Proof.
  assert (Hout : ~ In WebviewPointerButton.None
                     [WebviewPointerButton.Primary;
                      WebviewPointerButton.Secondary;
                      WebviewPointerButton.Tertiary]).
  { intros [H|[H|[H|[]]]]; discriminate H. }
  split; [exact Hout|].
  exact (SetPointerButtonState_default WebviewPointerButton.None true
           (world_of (listening accepting_bounds)) Hout).
Defined.

End Witness.

(** * The further properties at concrete worlds *)

Module FurtherWitness.

(** X4: a URL with a NUL in it reaches the control cut at the NUL. *)
Lemma navigation_forwards_witness :
  LoadUrl Example.a_nul_b (Example.browser_of Example.silent) =
    Some (tt, {| world := Example.world_of Example.silent;
                 navigator := Example.refusing_navigation;
                 navigation := [Navigation.Navigate [97]] |}) /\
  c_str (towstring "about:blank") = L "about:blank".
Proof.
  split.
  - exact (proj1 (navigation_forwards Example.a_nul_b
                    (Example.browser_of Example.silent))).
  - exact (proj2 (proj2 (proj2 (proj2
             (navigation_forwards "about:blank"
                (Example.browser_of Example.silent))))) eq_refl).
Defined.

(** X5: the source is read and reported. *)
Lemma SourceChanged_reports_source_witness :
  RegisterEventHandlers Example.narrow SourceChanged
    (Example.world_of (Example.listening Example.accepting_bounds)) =
  Some (S_OK, {| this := Example.listening Example.accepting_bounds;
                 native := [get_Source]; cerr := [];
                 host := [Example.UrlChanged "about:blank"] |}).
Proof.
  exact (SourceChanged_reports_source Example.narrow
           (Example.world_of (Example.listening Example.accepting_bounds))
           (fun a h => h ++ [Example.UrlChanged a]) eq_refl).
Defined.

(** X6: the title cannot be read; nothing is reported. *)
Lemma DocumentTitleChanged_reports_title_witness :
  RegisterEventHandlers Example.narrow DocumentTitleChanged
    (Example.world_of Example.listening_to_mute) =
  Some (S_OK, {| this := Example.listening_to_mute;
                 native := [get_DocumentTitle]; cerr := []; host := [] |}).
Proof.
  exact (DocumentTitleChanged_reports_title Example.narrow
           (Example.world_of Example.listening_to_mute)
           (fun a h => h ++ [Example.DocumentTitleChanged a]) eq_refl).
Defined.

(** X7: the cursor is read and reported. *)
Lemma CursorChanged_reports_cursor_witness :
  RegisterEventHandlers Example.narrow CursorChanged
    (Example.world_of (Example.listening Example.accepting_bounds)) =
  Some (S_OK, {| this := Example.listening Example.accepting_bounds;
                 native := [get_Cursor]; cerr := [];
                 host := [Example.CursorChanged 65539] |}).
Proof.
  exact (CursorChanged_reports_cursor Example.narrow
           (Example.world_of (Example.listening Example.accepting_bounds))
           (fun a h => h ++ [Example.CursorChanged a]) eq_refl).
Defined.

(** X11: every callback is set, but the resize finds no surface and no
    event is raised. *)
Lemma host_changes_through_callbacks_only_witness :
  exists w,
    perform_all Example.x64_LONG Example.x64_short Example.narrow
      [CallSetCursorPos Example.two_and_a_half Example.minus_ten_point_75;
       CallSetPointerButtonState WebviewPointerButton.Primary true;
       CallSetSurfaceSize 800 600;
       CallSetScrollDelta Example.two_and_a_half Double.zero;
       CallClearCookies;
       CallSetUserAgent "agent"]
      (Example.world_of Example.listening_to_mute) = Some (tt, w) /\
    host w = [].
Proof.
  exact (host_changes_through_callbacks_only Example.x64_LONG Example.x64_short Example.narrow
           [CallSetCursorPos Example.two_and_a_half Example.minus_ten_point_75;
            CallSetPointerButtonState WebviewPointerButton.Primary true;
            CallSetSurfaceSize 800 600;
            CallSetScrollDelta Example.two_and_a_half Double.zero;
            CallClearCookies;
            CallSetUserAgent "agent"]
           (Example.world_of Example.listening_to_mute) eq_refl).
Defined.

(** X12: dragging with the primary button. *)
Lemma held_button_is_reported_witness :
  exists w1 vk,
    SetPointerButtonState WebviewPointerButton.Primary true
      (Example.world_of Example.silent) = Some (tt, w1) /\
    Z.testbit vk 0 = true /\
    SetCursorPos Example.x64_LONG Example.two_and_a_half Example.two_and_a_half w1 =
      Some (tt, {| this := with_last_cursor_pos
                             {| POINT.x := 2; POINT.y := 2 |} (this w1);
                   native := native w1 ++
                     [SendMouseInput 0x0200 vk 0
                        {| POINT.x := 2; POINT.y := 2 |}];
                   cerr := cerr w1; host := host w1 |}).
Proof.
  destruct (held_button_is_reported Example.x64_LONG Example.x64_short
              WebviewPointerButton.Primary true Example.two_and_a_half
              Example.two_and_a_half Example.two_and_a_half false (Example.world_of Example.silent)
              (or_introl eq_refl))
    as [w1 [vk [Hrun [Hbit [Hmove _]]]]].
  exists w1, vk. repeat split; assumption.
Defined.

(** X13: a click of the middle button while the right one is held. *)
Lemma button_change_is_undone_witness :
  exists w1 k1 k2 vk,
    SetPointerButtonState WebviewPointerButton.Tertiary true
      (Example.world_of (Example.listening Example.accepting_bounds)) = Some (tt, w1) /\
    SetPointerButtonState WebviewPointerButton.Tertiary false w1 =
      Some (tt, {| this := Example.listening Example.accepting_bounds;
                   native :=
                     [SendMouseInput k1 vk 0 {| POINT.x := 3; POINT.y := 4 |};
                      SendMouseInput k2 2 0 {| POINT.x := 3; POINT.y := 4 |}];
                   cerr := []; host := [] |}).
Proof.
  exact (button_change_is_undone WebviewPointerButton.Tertiary false
           (Example.world_of (Example.listening Example.accepting_bounds))
           (or_intror (or_intror (or_introl eq_refl))) eq_refl).
Defined.

(** X15: 2.5 and -2.5 give 15 and -15. *)
Lemma SendScroll_opposite_witness :
  SendScroll Example.x64_short Example.two_and_a_half false (Example.world_of Example.silent) =
    Some (tt, {| this := Example.silent;
                 native := wheel_calls Example.silent false 15;
                 cerr := []; host := [] |}) /\
  SendScroll Example.x64_short (SFopp Example.two_and_a_half) false (Example.world_of Example.silent) =
    Some (tt, {| this := Example.silent;
                 native := wheel_calls Example.silent false (- 15);
                 cerr := []; host := [] |}).
Proof.
  assert (Hz : - 32767 <= 15 <= 32767) by lia.
  exact (SendScroll_opposite Example.x64_short Example.two_and_a_half false 15
           (Example.world_of Example.silent) eq_refl Hz).
Defined.

(** X16: a delta of -40 gives two wheel steps back. *)
Lemma SendScroll_integral_delta_witness :
  SendScroll Example.x64_short (Double.of_int (- 40)) true (Example.world_of Example.silent) =
    Some (tt, {| this := Example.silent;
                 native := wheel_calls Example.silent true (- 240);
                 cerr := []; host := [] |}).
Proof.
  assert (Hn : - 5461 <= - 40 <= 5461) by lia.
  exact (SendScroll_integral_delta Example.x64_short (- 40) true (Example.world_of Example.silent)
           Hn).
Defined.

(** X17: a NaN is forwarded; on x64 the offset is 0. *)
Lemma SetScrollDelta_forwards_non_finite_witness :
  SetScrollDelta Example.x64_short S754_nan Double.zero (Example.world_of Example.silent) =
    Some (tt, {| this := Example.silent;
                 native := wheel_calls Example.silent true 0;
                 cerr := []; host := [] |}).
Proof.
  exact (SetScrollDelta_forwards_non_finite Example.x64_short S754_nan
           (Example.world_of Example.silent) (or_introl eq_refl)).
Defined.

(** X18: (-0.0, -0.75) is the point (0, 0). *)
Lemma SetCursorPos_sub_pixel_witness :
  SetCursorPos Example.x64_LONG (S754_zero true) Example.minus_three_quarters
    (Example.world_of Example.silent) =
    Some (tt, {| this := Example.silent;
                 native :=
                   [SendMouseInput 0x0200 0 0 {| POINT.x := 0; POINT.y := 0 |}];
                 cerr := []; host := [] |}).
Proof.
  exact (SetCursorPos_sub_pixel Example.x64_LONG (S754_zero true)
           Example.minus_three_quarters (Example.world_of Example.silent)
           eq_refl eq_refl).
Defined.

(** X19: a width of 2^31 reaches the control as -2^31. *)
Lemma SetSurfaceSize_bounds_witness :
  exists w',
    SetSurfaceSize 2147483648 600 (Example.world_of (Example.listening Example.accepting_bounds)) =
      Some (tt, w') /\
    native w' =
      [Visual_Size (float_of_size_t 2147483648) (float_of_size_t 600);
       put_Bounds {| RECT.left := 0; RECT.top := 0;
                     RECT.right := - 2147483648; RECT.bottom := 600 |}] /\
    host w' = [Example.SurfaceSizeChanged (2147483648, 600)].
Proof.
  assert (Hw : 0 <= 2147483648 < 2 ^ 32) by (split; [lia | reflexivity]).
  assert (Hh : 0 <= 600 < 2 ^ 32) by (split; [lia | reflexivity]).
  exact (SetSurfaceSize_bounds 2147483648 600
           (Example.world_of (Example.listening Example.accepting_bounds)) eq_refl Hw Hh).
Defined.

End FurtherWitness.
